(** * Dynamic-array (spill) formulas: the [apply_spill_formula] tool

    A shallow embedding of [tests/test_spill_formula.py] (the functions
    [get_excel_path] and [apply_spill_formula]) over an interface for the
    spreadsheet library the tool calls into, followed by the properties
    of the specification that concern them. *)

From Stdlib Require Import ZArith Lia Ascii String List Bool.
From stdpp Require Import base decidable option list gmap strings.

Local Open Scope Z_scope.

(** ** Python exceptions and results *)

(** The exception classes the tool tells apart.  Every exception here
    derives from [Exception]: [except ValueError] catches the first class,
    [except AttributeError] the second and [except Exception] all three. *)
Inductive exn_class := ValueError | AttributeError | OtherException.

#[global] Instance exn_class_eq_dec : EqDecision exn_class.
Proof. solve_decision. Defined.

(** An exception value: its class and [str(e)]. *)
Record exn := Exn { class_of : exn_class; str : string }.

(** Result of a library call: a value or a raised exception. *)
Inductive result (A : Type) :=
| Ok (a : A)
| Err (e : exn).
Arguments Ok {A} a.
Arguments Err {A} e.

(** Outcome of a block of statements: control reaches the next statement,
    the function returns a string, or an exception propagates. *)
Inductive outcome (A : Type) :=
| Next (a : A)
| Return (r : string)
| Raise (e : exn).
Arguments Next {A} a.
Arguments Return {A} r.
Arguments Raise {A} e.

(** ** The library interface

    [openpyxl] and [os] are not part of the repository; the tool is
    embedded over the operations it uses.  The in-memory workbook is a
    value threaded through the calls that mutate it; a worksheet and a cell
    are handles into it, so that what [save] writes is the workbook with
    every assignment made through the handles. *)
Class DocLib := {
  Storage : Type;      (* the stored workbooks, by path *)
  Workbook : Type;     (* an in-memory workbook *)
  Worksheet : Type;    (* handle of a sheet of a workbook *)
  Cell : Type;         (* handle of a cell of a sheet *)
  (* os.environ.get(name) *)
  environ_get : string -> option string;
  (* os.makedirs(path, exist_ok=True) *)
  makedirs : string -> result unit;
  (* os.path.join(a, b) *)
  path_join : string -> string -> string;
  (* openpyxl.load_workbook(path) *)
  load_workbook : Storage -> string -> result Workbook;
  (* wb.sheetnames *)
  sheetnames : Workbook -> list string;
  (* wb[name] *)
  wb_getitem : Workbook -> string -> result Worksheet;
  (* openpyxl.utils.coordinate_to_tuple(ref) = (row, column) *)
  coordinate_to_tuple : string -> result (Z * Z);
  (* sheet[ref]: the cell, created when the sheet does not have it yet *)
  ws_getitem : Workbook -> Worksheet -> string -> result (Cell * Workbook);
  (* cell.value = v *)
  set_value : Workbook -> Cell -> string -> result Workbook;
  (* cell.set_dynamic_array_formula(range) *)
  set_dynamic_array_formula : Workbook -> Cell -> string -> result Workbook;
  (* wb.save(path): the new storage, or an exception and no change *)
  save : Workbook -> string -> Storage -> result Storage
}.

(** ** Statements: storage passing with early return and exceptions *)

Section Statements.
Context {L : DocLib}.

Definition body (A : Type) : Type := Storage -> outcome A * Storage.

Definition ret {A} (a : A) : body A := fun st => (Next a, st).

(* return r *)
Definition return_ {A} (r : string) : body A := fun st => (Return r, st).

(* a library call that does not touch the storage *)
Definition call {A} (r : result A) : body A :=
  fun st => (match r with Ok a => Next a | Err e => Raise e end, st).

(* a library call that reads the storage *)
Definition reading {A} (f : Storage -> result A) : body A :=
  fun st => call (f st) st.

(* a library call that replaces the storage *)
Definition writing (f : Storage -> result Storage) : body unit :=
  fun st => match f st with
            | Ok st' => (Next tt, st')
            | Err e => (Raise e, st)
            end.

Definition bind {A B} (c : body A) (k : A -> body B) : body B :=
  fun st => match c st with
            | (Next a, st') => k a st'
            | (Return r, st') => (Return r, st')
            | (Raise e, st') => (Raise e, st')
            end.

(* try: c  except <class>: handler *)
Definition try_except {A} (catches : exn -> bool)
    (c : body A) (handler : exn -> body A) : body A :=
  fun st => match c st with
            | (Raise e, st') =>
                if catches e then handler e st' else (Raise e, st')
            | r => r
            end.

Definition is_a (c : exn_class) (e : exn) : bool :=
  bool_decide (class_of e = c).

Definition any_exception (e : exn) : bool := true.

End Statements.

Notation "x <~ c ;; k" := (bind c (fun x => k))
  (at level 20, c at level 99, k at level 200, right associativity).

(** ** The tool *)

Section Tool.
Context {L : DocLib}.

(** [get_excel_path] (test_spill_formula.py, lines 20-24). *)
Definition get_excel_path (filename : string) : body string :=
  let base_path :=
    default "/tmp/excel_files" (environ_get "EXCEL_FILES_PATH") in
  _ <~ call (makedirs base_path) ;;
  ret (path_join base_path filename).

Definition sheet_not_found (sheet_name : string) : string :=
  "Error: Sheet '" +:+ sheet_name +:+ "' not found".

Definition invalid_range : string :=
  "Error: Invalid range specification: start_cell must be before end_cell".

Definition invalid_reference : string := "Error: Invalid cell reference".

Definition spill_unavailable : string :=
  "Error: This feature requires openpyxl-spill library. Please ensure it's properly installed.".

Definition applied (formula range_str : string) : string :=
  "Applied dynamic array formula '" +:+ formula +:+ "' to range " +:+ range_str.

Definition error_applying (e : exn) : string :=
  "Error applying spill formula: " +:+ str e.

(** The block "Validate cell references" (lines 82-89). *)
Definition validate_cell_references (start_cell end_cell : string) : body unit :=
  try_except (is_a ValueError)
    (start <~ call (coordinate_to_tuple start_cell) ;;
     let '(start_row, start_col) := start in
     end_ <~ call (coordinate_to_tuple end_cell) ;;
     let '(end_row, end_col) := end_ in
     if (start_row >? end_row) || (start_col >? end_col)
     then return_ invalid_range
     else ret tt)
    (fun _ => return_ invalid_reference).

(** [apply_spill_formula] (lines 62-110). *)
Definition apply_spill_formula
    (filepath sheet_name start_cell end_cell formula : string) : body unit :=
  try_except any_exception
    (full_path <~ get_excel_path filepath ;;
     (* Open workbook *)
     wb <~ reading (fun st => load_workbook st full_path) ;;
     (* Check if sheet exists *)
     if bool_decide (sheet_name ∉ sheetnames wb)
     then return_ (sheet_not_found sheet_name)
     else
     sheet <~ call (wb_getitem wb sheet_name) ;;
     (* Validate cell references *)
     _ <~ validate_cell_references start_cell end_cell ;;
     (* Set formula in start cell *)
     item <~ call (ws_getitem wb sheet start_cell) ;;
     let '(cell, wb) := item in
     wb <~ call (set_value wb cell formula) ;;
     (* Apply dynamic array formula to range *)
     let range_str := start_cell +:+ ":" +:+ end_cell in
     wb <~ try_except (is_a AttributeError)
             (call (set_dynamic_array_formula wb cell range_str))
             (fun _ => return_ spill_unavailable) ;;
     (* Save workbook; wb.close() has no result and no effect on storage *)
     _ <~ writing (save wb full_path) ;;
     return_ (applied formula range_str))
    (fun e => return_ (error_applying e)).

(** ** What a call meets in its environment *)

(* the workbook of [filepath] is loaded from [full_path] *)
Definition loads (st : Storage) (filepath full_path : string) (wb : Workbook) : Prop :=
  get_excel_path filepath st = (Next full_path, st) /\
  load_workbook st full_path = Ok wb.

(* the workbook has the sheet *)
Definition has_sheet (wb : Workbook) (sheet_name : string) (sheet : Worksheet) : Prop :=
  sheet_name ∈ sheetnames wb /\ wb_getitem wb sheet_name = Ok sheet.

(* the library accepts both references *)
Definition resolves (start_cell end_cell : string) (a b : Z * Z) : Prop :=
  coordinate_to_tuple start_cell = Ok a /\ coordinate_to_tuple end_cell = Ok b.

(* the library assigns the formula to the start cell and marks the range *)
Definition writes (wb : Workbook) (sheet : Worksheet)
    (start_cell end_cell formula : string) (wb' : Workbook) : Prop :=
  exists cell wb1 wb2,
    ws_getitem wb sheet start_cell = Ok (cell, wb1) /\
    set_value wb1 cell formula = Ok wb2 /\
    set_dynamic_array_formula wb2 cell (start_cell +:+ ":" +:+ end_cell) = Ok wb'.

End Tool.


(** * The subsystem the specification describes

    The coordinate resolver, the formula rewriter and the serializer of
    the specification are not in the repository: the tool delegates them
    to the spreadsheet library.  They are modelled here from the
    specification's text. *)

Inductive error_kind :=
  InvalidReference | InvalidRange | EmptyFormula | SheetNotFound | IoFailure.

Inductive Result (A : Type) :=
| Success (a : A)
| Failure (k : error_kind).
Arguments Success {A} a.
Arguments Failure {A} k.

(** ** Characters and strings *)

Definition code (c : ascii) : Z := Z.of_N (N_of_ascii c).
Definition char_of (n : Z) : ascii := ascii_of_N (Z.to_N n).

Definition is_upper (c : ascii) : bool := (65 <=? code c) && (code c <=? 90).
Definition is_lower (c : ascii) : bool := (97 <=? code c) && (code c <=? 122).
Definition is_digit (c : ascii) : bool := (48 <=? code c) && (code c <=? 57).

Definition to_upper (c : ascii) : ascii :=
  if is_lower c then char_of (code c - 32) else c.

Fixpoint upper (s : string) : string :=
  match s with
  | EmptyString => EmptyString
  | String c s' => String (to_upper c) (upper s')
  end.

Fixpoint all_chars (p : ascii -> bool) (s : string) : bool :=
  match s with
  | EmptyString => true
  | String c s' => p c && all_chars p s'
  end.

(* the longest prefix of characters satisfying [p], and the rest *)
Fixpoint span (p : ascii -> bool) (s : string) : string * string :=
  match s with
  | EmptyString => (EmptyString, EmptyString)
  | String c s' =>
      if p c then let '(taken, rest) := span p s' in (String c taken, rest)
      else (EmptyString, s)
  end.

(** ** Coordinate Resolver (specification, section 4.1) *)

(** A coordinate is [(row, column)], as [coordinate_to_tuple] returns it. *)
Definition Coordinate : Type := Z * Z.
Definition row (c : Coordinate) : Z := c.1.
Definition column (c : Coordinate) : Z := c.2.

(* bijective base 26: A=1, ..., Z=26, AA=27, ... *)
Fixpoint column_number (acc : Z) (letters : string) : Z :=
  match letters with
  | EmptyString => acc
  | String c s => column_number (acc * 26 + (code c - 64)) s
  end.

(* base 10 *)
Fixpoint row_number (acc : Z) (digits : string) : Z :=
  match digits with
  | EmptyString => acc
  | String c s => row_number (acc * 10 + (code c - 48)) s
  end.

(** Modelled from the spec: the Coordinate Resolver [parse] of section 4.1,
    which the tool takes from the library ([coordinate_to_tuple]).  The
    reference is case-normalized, split into its leading letters and the
    rest; the rest must be one or more digits denoting a row of at least 1. *)
Definition parse (reference : string) : Result Coordinate :=
  let '(letters, digits) := span is_upper (upper reference) in
  if bool_decide (letters = EmptyString) then Failure InvalidReference
  else if bool_decide (digits = EmptyString) then Failure InvalidReference
  else if negb (all_chars is_digit digits) then Failure InvalidReference
  else if row_number 0 digits =? 0 then Failure InvalidReference
  else Success (row_number 0 digits, column_number 0 letters).

(** The grammar of section 4.1, stated on its own: one or more uppercase
    letters immediately followed by one or more digits, nothing else. *)
Definition matches_grammar (s letters digits : string) : Prop :=
  s = letters +:+ digits /\
  letters <> EmptyString /\ all_chars is_upper letters = true /\
  digits <> EmptyString /\ all_chars is_digit digits = true.

(** A valid reference: its upper-cased text matches the grammar and its
    digits denote a row other than 0. *)
Definition valid_reference (reference : string) : Prop :=
  exists letters digits,
    matches_grammar (upper reference) letters digits /\
    row_number 0 digits <> 0.

(* the letters of a column number; [fuel] bounds the number of letters *)
Fixpoint column_letters (fuel : nat) (n : Z) : string :=
  match fuel with
  | O => EmptyString
  | S fuel' =>
      if n <=? 0 then EmptyString
      else column_letters fuel' ((n - 1) / 26)
             +:+ String (char_of (65 + (n - 1) mod 26)) EmptyString
  end.

Fixpoint row_digits (fuel : nat) (n : Z) : string :=
  match fuel with
  | O => EmptyString
  | S fuel' =>
      (if n <? 10 then EmptyString else row_digits fuel' (n / 10))
        +:+ String (char_of (48 + n mod 10)) EmptyString
  end.

(* the text of a coordinate, in the grammar [parse] reads *)
Definition format_reference (c : Coordinate) : string :=
  column_letters 8 (column c) +:+ row_digits 20 (row c).

(** The references section 4.1 refuses: the grammar does not match, or
    it matches with digits that denote row 0, or the text is empty. *)
Definition malformed (reference : string) : Prop :=
  (~ exists letters digits, matches_grammar (upper reference) letters digits) \/
  (exists letters digits,
     matches_grammar (upper reference) letters digits /\
     row_number 0 digits = 0) \/
  reference = EmptyString.

(** A library whose [coordinate_to_tuple] is the Coordinate Resolver:
    it returns the coordinate [parse] yields and raises [ValueError] where
    [parse] fails. *)
Definition resolves_by_parse (L : DocLib) : Prop :=
  forall reference,
    match parse reference with
    | Success c => coordinate_to_tuple reference = Ok c
    | Failure _ =>
        exists message, coordinate_to_tuple reference = Err (Exn ValueError message)
    end.

(** ** Document model and Serializer (specification, sections 4.5 and 6) *)

(** What a cell of the document model holds: a plain value
    ([set_cell_value]), the formula of an array anchor with the extent of
    its range ([mark_cell_as_array_anchor]), or the placeholder of a spill
    member with its anchor ([mark_cell_as_spill_member]). *)
Inductive CellContent :=
| Value (v : string)
| ArrayAnchor (formula_text range_text : string)
| SpillMember (anchor_coordinate : Coordinate).

(* the formula text a cell carries, if any *)
Definition formula_text_of (c : CellContent) : option string :=
  match c with
  | ArrayAnchor formula_text _ => Some formula_text
  | Value v => if String.prefix "=" v then Some v else None
  | SpillMember _ => None
  end.

(* the text assigned to a cell last *)
Definition text_of (c : option CellContent) : string :=
  match c with
  | Some (Value v) => v
  | Some (ArrayAnchor formula_text _) => formula_text
  | _ => EmptyString
  end.

Record CellRange := { range_start : Coordinate; range_end : Coordinate }.

Definition height (r : CellRange) : Z := row (range_end r) - row (range_start r) + 1.
Definition width (r : CellRange) : Z := column (range_end r) - column (range_start r) + 1.

Record SpillBinding := {
  anchor : Coordinate;
  range : CellRange;
  rewritten_formula : string
}.

(* the cells of the rectangle, row by row *)
Definition range_cells (r : CellRange) : list Coordinate :=
  row_ ← seqZ (row (range_start r)) (height r);
  column_ ← seqZ (column (range_start r)) (width r);
  [(row_, column_)].

Definition range_text (r : CellRange) : string :=
  format_reference (range_start r) +:+ ":" +:+ format_reference (range_end r).

Definition mark_cell_as_array_anchor (cells : gmap Coordinate CellContent)
    (coordinate : Coordinate) (formula_text range_text : string) :
    gmap Coordinate CellContent :=
  <[coordinate := ArrayAnchor formula_text range_text]> cells.

Definition mark_cell_as_spill_member (cells : gmap Coordinate CellContent)
    (coordinate anchor_coordinate : Coordinate) : gmap Coordinate CellContent :=
  <[coordinate := SpillMember anchor_coordinate]> cells.

(** Modelled from the spec: the Serializer [apply] of section 4.5, the part
    of [set_dynamic_array_formula] that writes the cells of a sheet.  The
    anchor receives the formula and the extent of the range; every other
    cell of the range receives the placeholder of a spill member. *)
Definition apply_binding (cells : gmap Coordinate CellContent)
    (binding : SpillBinding) : gmap Coordinate CellContent :=
  let cells :=
    mark_cell_as_array_anchor cells (anchor binding)
      (rewritten_formula binding) (range_text (range binding)) in
  foldl
    (fun cells coordinate =>
       if decide (coordinate = anchor binding) then cells
       else mark_cell_as_spill_member cells coordinate (anchor binding))
    cells (range_cells (range binding)).

(** ** Formula Rewriter (specification, section 4.3) *)

Definition quote : ascii := "034"%char.
Definition is_quote (c : ascii) : bool := bool_decide (c = quote).
Definition is_open_paren (c : ascii) : bool := bool_decide (c = "("%char).

(* the characters of a bare identifier *)
Definition is_identifier_char (c : ascii) : bool :=
  is_upper c || is_lower c || is_digit c || bool_decide (c = "_"%char).

Inductive token :=
| Literal (text : string)        (* a string literal, quotes included *)
| Call (identifier : string)     (* an identifier followed by "(" *)
| Other (text : string).         (* anything else, passed through *)

(* where the scan stands: outside a literal, with the identifier
   characters read since the last token, or inside one, with its text *)
Inductive scanning :=
| Outside (identifier : string)
| Inside (literal : string).

(* the text the scan has read and not yet turned into a token *)
Definition held (state : scanning) : string :=
  match state with
  | Outside identifier => identifier
  | Inside literal => literal
  end.

Definition snoc (s : string) (c : ascii) : string := s +:+ String c EmptyString.

Definition pending (identifier : string) : list token :=
  if bool_decide (identifier = EmptyString) then [] else [Other identifier].

Fixpoint scan (state : scanning) (s : string) : list token :=
  match s, state with
  | EmptyString, Outside identifier => pending identifier
  | EmptyString, Inside literal => [Literal literal]
  | String c s', Outside identifier =>
      if is_quote c then
        pending identifier ++ scan (Inside (String c EmptyString)) s'
      else if is_identifier_char c then
        scan (Outside (snoc identifier c)) s'
      else if is_open_paren c && negb (bool_decide (identifier = EmptyString)) then
        Call identifier :: Other (String c EmptyString) :: scan (Outside EmptyString) s'
      else
        pending identifier ++ Other (String c EmptyString) :: scan (Outside EmptyString) s'
  | String c s', Inside literal =>
      if is_quote c then
        match s' with
        | String d s'' =>
            if is_quote d
            then scan (Inside (snoc (snoc literal c) d)) s''   (* doubled quote *)
            else Literal (snoc literal c) :: scan (Outside EmptyString) s'
        | EmptyString => [Literal (snoc literal c)]
        end
      else scan (Inside (snoc literal c)) s'
  end.

Definition tokenize (formula : string) : list token :=
  scan (Outside EmptyString) formula.

(* the function-call identifiers of a formula, outside string literals *)
Definition call_identifiers (formula : string) : list string :=
  omap (fun t => match t with Call identifier => Some identifier | _ => None end)
       (tokenize formula).

Definition source_text (t : token) : string :=
  match t with
  | Literal text | Other text => text
  | Call identifier => identifier
  end.

Fixpoint concat_strings (l : list string) : string :=
  match l with
  | [] => EmptyString
  | s :: l' => s +:+ concat_strings l'
  end.

Section Rewriter.
(** The Compatibility Table is not given by the specification beyond its
    shape: a mapping from the normalized (upper-case) name of a function
    to the prefix it requires. *)
Variable table : gmap string string.

Definition rewrite_token (t : token) : string :=
  match t with
  | Call identifier =>
      match table !! upper identifier with
      | Some required_prefix => required_prefix +:+ identifier
      | None => identifier
      end
  | _ => source_text t
  end.

(** Modelled from the spec: the Formula Rewriter [rewrite] of section 4.3. *)
Definition rewrite_formula (formula : string) : string :=
  concat_strings (rewrite_token <$> tokenize formula).

End Rewriter.

(** ** A document library

    An instance of the library interface over the document model: a
    workbook is the list of its sheets by name, the storage maps a path to
    the workbook saved there.  [coordinate_to_tuple] is the Coordinate
    Resolver and [set_dynamic_array_formula] the Serializer.  With
    [spill_support = false] cells have no [set_dynamic_array_formula], as
    in the library without the spill extension. *)

Definition Sheets : Type := list (string * gmap Coordinate CellContent).

Fixpoint sheet_cells (name : string) (wb : Sheets) : gmap Coordinate CellContent :=
  match wb with
  | [] => ∅
  | (n, cells) :: wb' => if decide (n = name) then cells else sheet_cells name wb'
  end.

Fixpoint update_sheet (name : string)
    (f : gmap Coordinate CellContent -> gmap Coordinate CellContent)
    (wb : Sheets) : Sheets :=
  match wb with
  | [] => []
  | (n, cells) :: wb' =>
      if decide (n = name) then (n, f cells) :: wb'
      else (n, cells) :: update_sheet name f wb'
  end.

(* the two references of "START:END" *)
Fixpoint split_range (range_str : string) : option (string * string) :=
  match range_str with
  | EmptyString => None
  | String c s =>
      if bool_decide (c = ":"%char) then Some (EmptyString, s)
      else '(first, second) ← split_range s; Some (String c first, second)
  end.

Definition resolve (reference : string) : result Coordinate :=
  match parse reference with
  | Success c => Ok c
  | Failure _ => Err (Exn ValueError ("Invalid cell reference: " +:+ reference))
  end.

Definition write_spill (spill_support : bool) (wb : Sheets)
    (cell : string * Coordinate) (range_str : string) : result Sheets :=
  if negb spill_support then
    Err (Exn AttributeError "'Cell' object has no attribute 'set_dynamic_array_formula'")
  else
    match split_range range_str with
    | Some (first, second) =>
        match parse first, parse second with
        | Success a, Success b =>
            Ok (update_sheet cell.1
                  (fun cells =>
                     apply_binding cells
                       {| anchor := cell.2;
                          range := {| range_start := a; range_end := b |};
                          rewritten_formula := text_of (cells !! cell.2) |})
                  wb)
        | _, _ => Err (Exn ValueError ("Invalid range: " +:+ range_str))
        end
    | None => Err (Exn ValueError ("Invalid range: " +:+ range_str))
    end.

Definition document_library (spill_support : bool) : DocLib := {|
  Storage := gmap string Sheets;
  Workbook := Sheets;
  Worksheet := string;
  Cell := string * Coordinate;
  environ_get := fun _ => None;
  makedirs := fun _ => Ok tt;
  path_join := fun a b => a +:+ "/" +:+ b;
  load_workbook := fun st path =>
    match st !! path with
    | Some wb => Ok wb
    | None => Err (Exn OtherException ("No such file or directory: " +:+ path))
    end;
  sheetnames := fun wb => wb.*1;
  wb_getitem := fun wb name =>
    if bool_decide (name ∈ wb.*1) then Ok name
    else Err (Exn OtherException ("Worksheet " +:+ name +:+ " does not exist."));
  coordinate_to_tuple := resolve;
  ws_getitem := fun wb sheet reference =>
    match resolve reference with
    | Ok c => Ok ((sheet, c), wb)
    | Err e => Err e
    end;
  set_value := fun wb cell v =>
    Ok (update_sheet cell.1 (fun cells => <[cell.2 := Value v]> cells) wb);
  set_dynamic_array_formula := write_spill spill_support;
  save := fun wb path st => Ok (<[path := wb]> st)
|}.

(* the workbook the test fixture creates: one empty sheet named "Sheet" *)
Definition new_workbook : Sheets := [("Sheet", ∅)].

Definition test_storage : gmap string Sheets :=
  {[ "/tmp/excel_files/test_spill.xlsx" := new_workbook ]}.

(* what the workbook saved at [path] holds in a cell of a sheet *)
Definition stored_cell (st : gmap string Sheets) (path sheet_name : string)
    (coordinate : Coordinate) : option CellContent :=
  wb ← st !! path; sheet_cells sheet_name wb !! coordinate.

(** ** Formula text *)

Fixpoint lstrip (s : string) : string :=
  match s with
  | String c s' => if Ascii.is_space c then lstrip s' else s
  | EmptyString => EmptyString
  end.

(* formula.strip() *)
Definition trim (s : string) : string :=
  String.rev (lstrip (String.rev (lstrip s))).

Definition begins_with_equals (s : string) : bool := String.prefix "=" s.

(* [sub] occurs in [s] *)
Definition contains (s sub : string) : Prop :=
  exists before after, s = before +:+ sub +:+ after.

(* an error message of the tool *)
Definition failed (message : string) : bool := String.prefix "Error" message.


(** * The other functions of the test module

    [create_workbook] and [write_data_to_excel] build the workbooks the
    tool is run on; [test_compare_with_reference_file] normalizes the
    formulas it compares. *)

(** ** What they use of the library besides *)

Class SheetLib := {
  sheet_doc_lib :: DocLib;
  CellValue : Type;    (* what a cell can be given: text, number, date *)
  (* Workbook() *)
  Workbook_new : Workbook;
  (* wb.create_sheet(name) *)
  create_sheet : Workbook -> string -> result Workbook;
  (* sheet.cell(row=r, column=c, value=v) *)
  ws_cell : Workbook -> Worksheet -> Z -> Z -> CellValue -> result Workbook
}.

(* enumerate(l, start) *)
Fixpoint enumerate_from {A} (start : Z) (l : list A) : list (Z * A) :=
  match l with
  | [] => []
  | x :: l' => (start, x) :: enumerate_from (start + 1) l'
  end.

(* enumerate(l) *)
Definition enumerate {A} (l : list A) : list (Z * A) := enumerate_from 0 l.

(* for x in l: <statement on the workbook>; the first exception ends the loop *)
Fixpoint for_each {A S} (l : list A) (f : A -> S -> result S) (s : S) : result S :=
  match l with
  | [] => Ok s
  | x :: l' =>
      match f x s with
      | Ok s' => for_each l' f s'
      | Err e => Err e
      end
  end.

Section Writer.
Context {W : SheetLib}.

Definition created (full_path : string) : string :=
  "Workbook created successfully at " +:+ full_path.

Definition error_creating (e : exn) : string :=
  "Error creating workbook: " +:+ str e.

Definition written : string := "Data written successfully".

Definition error_writing (e : exn) : string :=
  "Error writing data: " +:+ str e.

(** [create_workbook] (lines 27-36). *)
Definition create_workbook (filename : string) : body unit :=
  try_except any_exception
    (full_path <~ get_excel_path filename ;;
     let wb := Workbook_new in
     _ <~ writing (save wb full_path) ;;
     return_ (created full_path))
    (fun e => return_ (error_creating e)).

(* the two loops of [write_data_to_excel] (lines 51-53) *)
Definition write_rows (sheet : Worksheet) (start_row start_col : Z)
    (data : list (list CellValue)) (wb : Workbook) : result Workbook :=
  for_each (enumerate data)
    (fun '(row_idx, row_data) wb =>
       for_each (enumerate row_data)
         (fun '(col_idx, value) wb =>
            ws_cell wb sheet (start_row + row_idx) (start_col + col_idx) value)
         wb)
    wb.

(** [write_data_to_excel] (lines 39-59). *)
Definition write_data_to_excel (filepath sheet_name start_cell : string)
    (data : list (list CellValue)) : body unit :=
  try_except any_exception
    (full_path <~ get_excel_path filepath ;;
     wb <~ reading (fun st => load_workbook st full_path) ;;
     wb <~ (if bool_decide (sheet_name ∉ sheetnames wb)
            then call (create_sheet wb sheet_name)
            else ret wb) ;;
     sheet <~ call (wb_getitem wb sheet_name) ;;
     start <~ call (coordinate_to_tuple start_cell) ;;
     let '(start_row, start_col) := start in
     wb <~ call (write_rows sheet start_row start_col data wb) ;;
     _ <~ writing (save wb full_path) ;;
     return_ written)
    (fun e => return_ (error_writing e)).

(* the sheet [write_data_to_excel] writes to: the one the workbook has, or
   the one it creates *)
Definition opens_sheet (wb : Workbook) (sheet_name : string)
    (wb' : Workbook) (sheet : Worksheet) : Prop :=
  ((sheet_name ∈ sheetnames wb /\ wb' = wb) \/
   ((sheet_name ∉ sheetnames wb) /\ create_sheet wb sheet_name = Ok wb')) /\
  wb_getitem wb' sheet_name = Ok sheet.

(* the cells the loops assign, in the order they assign them *)
Definition row_writes (r start_col : Z) (row_data : list CellValue) :
    list (Z * Z * CellValue) :=
  '(col_idx, value) ← enumerate row_data; [(r, start_col + col_idx, value)].

Definition cell_writes (start_row start_col : Z) (data : list (list CellValue)) :
    list (Z * Z * CellValue) :=
  '(row_idx, row_data) ← enumerate data;
  row_writes (start_row + row_idx) start_col row_data.

(* what is saved can be loaded again *)
Definition save_then_load : Prop :=
  forall (wb : Workbook) (path : string) (st st' : Storage),
    save wb path st = Ok st' -> load_workbook st' path = Ok wb.

(* creating a sheet adds its name; assigning a cell keeps the sheets *)
Definition sheets_kept : Prop :=
  (forall (wb : Workbook) (name : string) (wb' : Workbook),
     create_sheet wb name = Ok wb' -> name ∈ sheetnames wb') /\
  (forall (wb : Workbook) (sheet : Worksheet) (r c : Z) (v : CellValue)
          (wb' : Workbook),
     ws_cell wb sheet r c v = Ok wb' -> sheetnames wb' = sheetnames wb).

End Writer.

(** ** The comparison of formulas (lines 393-399) *)

(* s.replace(old, new); [skip] characters of a replaced occurrence are
   still to be passed over *)
Fixpoint replace_from (skip : nat) (s old new : string) : string :=
  match s with
  | EmptyString => if bool_decide (old = EmptyString) then new else EmptyString
  | String c s' =>
      match skip with
      | S skip' => replace_from skip' s' old new
      | O =>
          if String.prefix old s then
            if bool_decide (old = EmptyString)
            then new +:+ String c (replace_from 0 s' old new)
            else new +:+ replace_from (String.length old - 1) s' old new
          else String c (replace_from 0 s' old new)
      end
  end.

Definition replace (s old new : string) : string := replace_from 0 s old new.

(* test_formula.upper().replace(" ", "") with the two prefixes removed,
   for texts of ASCII characters *)
Definition normalize_test_formula (test_formula : string) : string :=
  let normalized := replace (upper test_formula) " " EmptyString in
  let normalized := replace normalized "=_XLFN._XLWS." "=" in
  replace normalized "=_XLFN." "=".

(* expected_formula.upper().replace(" ", "") *)
Definition normalize_expected (expected_formula : string) : string :=
  replace (upper expected_formula) " " EmptyString.

(* [s] without the character [c] *)
Fixpoint without (c : ascii) (s : string) : string :=
  match s with
  | EmptyString => EmptyString
  | String d s' => if bool_decide (d = c) then without c s' else String d (without c s')
  end.

(* [s] has no underscore *)
Definition no_underscore (s : string) : bool :=
  all_chars (fun c => bool_decide (c <> "_"%char)) s.

(** ** The document library, with sheets and cells

    A new workbook has the one sheet "Sheet"; a sheet is created empty at
    the end; a cell is given a text. *)
Definition document_sheet_library (spill_support : bool) : SheetLib := {|
  sheet_doc_lib := document_library spill_support;
  CellValue := string;
  Workbook_new := new_workbook;
  create_sheet := fun (wb : Sheets) name => Ok (wb ++ [(name, ∅)]);
  ws_cell := fun (wb : Sheets) (sheet : string) r c v =>
    Ok (update_sheet sheet (fun cells => <[(r, c) := Value v]> cells) wb)
|}.

(* the document library over a workbook whose cells are read only: the
   assignment of a value raises *)
Definition read_only_library : DocLib := {|
  Storage := gmap string Sheets;
  Workbook := Sheets;
  Worksheet := string;
  Cell := string * Coordinate;
  environ_get := environ_get (DocLib := document_library true);
  makedirs := makedirs (DocLib := document_library true);
  path_join := path_join (DocLib := document_library true);
  load_workbook := load_workbook (DocLib := document_library true);
  sheetnames := sheetnames (DocLib := document_library true);
  wb_getitem := wb_getitem (DocLib := document_library true);
  coordinate_to_tuple := resolve;
  ws_getitem := ws_getitem (DocLib := document_library true);
  set_value := fun _ _ _ => Err (Exn AttributeError "Cell is read only");
  set_dynamic_array_formula := write_spill true;
  save := save (DocLib := document_library true)
|}.

(** * Strings *)

Lemma append_assoc (s1 s2 s3 : string) : (s1 +:+ s2) +:+ s3 = s1 +:+ s2 +:+ s3.
Proof.
  induction s1 as [|c s1 IH]; [reflexivity|].
  change (String c ((s1 +:+ s2) +:+ s3) = String c (s1 +:+ s2 +:+ s3)).
  by rewrite IH.
Qed.

Lemma append_empty_r (s : string) : s +:+ EmptyString = s.
Proof.
  induction s as [|c s IH]; [reflexivity|].
  change (String c (s +:+ EmptyString) = String c s). by rewrite IH.
Qed.

Lemma append_cons (c : ascii) (s1 s2 : string) :
  String c s1 +:+ s2 = String c (s1 +:+ s2).
Proof. reflexivity. Qed.

Lemma append_empty_l (s : string) : EmptyString +:+ s = s.
Proof. reflexivity. Qed.

(** * Properties of the tool *)

Section ToolProperties.
Context {L : DocLib}.
Implicit Types (st : Storage) (wb : Workbook).
Implicit Types (filepath sheet_name start_cell end_cell formula : string).

(* closes a goal on a call that has returned an error message *)
Ltac returned :=
  simpl; eexists _, _; split; [reflexivity|]; right; split; reflexivity.

Lemma sheet_not_found_failed sheet_name : failed (sheet_not_found sheet_name) = true.
Proof. reflexivity. Qed.

Lemma error_applying_failed e : failed (error_applying e) = true.
Proof. reflexivity. Qed.

Lemma applied_not_failed formula range_str : failed (applied formula range_str) = false.
Proof. reflexivity. Qed.

Lemma try_except_next {A B} catches (c : body A) (k : A -> body B) handler st a st' :
  c st = (Next a, st') ->
  try_except catches (bind c k) handler st = try_except catches (k a) handler st'.
Proof. intros H. unfold try_except, bind. by rewrite H. Qed.

Lemma bind_next {A B} (c : body A) (k : A -> body B) st a st' :
  c st = (Next a, st') -> bind c k st = k a st'.
Proof. intros H. unfold bind. by rewrite H. Qed.

Lemma bind_return {A B} (c : body A) (k : A -> body B) st r st' :
  c st = (Return r, st') -> bind c k st = (Return r, st').
Proof. intros H. unfold bind. by rewrite H. Qed.

(** Once the workbook is loaded, the call stands at the sheet check. *)
Lemma apply_spill_formula_loaded st filepath full_path wb
    sheet_name start_cell end_cell formula :
  loads st filepath full_path wb ->
  apply_spill_formula filepath sheet_name start_cell end_cell formula st =
  try_except any_exception
    (if bool_decide (sheet_name ∉ sheetnames wb)
     then return_ (sheet_not_found sheet_name)
     else
     sheet <~ call (wb_getitem wb sheet_name) ;;
     _ <~ validate_cell_references start_cell end_cell ;;
     item <~ call (ws_getitem wb sheet start_cell) ;;
     let '(cell, wb) := item in
     wb <~ call (set_value wb cell formula) ;;
     let range_str := start_cell +:+ ":" +:+ end_cell in
     wb <~ try_except (is_a AttributeError)
             (call (set_dynamic_array_formula wb cell range_str))
             (fun _ => return_ spill_unavailable) ;;
     _ <~ writing (save wb full_path) ;;
     return_ (applied formula range_str))
    (fun e => return_ (error_applying e)) st.
Proof.
  intros [Hpath Hload]. unfold apply_spill_formula.
  unfold try_except at 1 3. unfold bind at 1. rewrite Hpath.
  unfold bind at 1, reading, call at 1. by rewrite Hload.
Qed.

Lemma apply_spill_formula_opened st filepath full_path wb sheet_name sheet
    start_cell end_cell formula :
  loads st filepath full_path wb ->
  has_sheet wb sheet_name sheet ->
  apply_spill_formula filepath sheet_name start_cell end_cell formula st =
  try_except any_exception
    (_ <~ validate_cell_references start_cell end_cell ;;
     item <~ call (ws_getitem wb sheet start_cell) ;;
     let '(cell, wb) := item in
     wb <~ call (set_value wb cell formula) ;;
     let range_str := start_cell +:+ ":" +:+ end_cell in
     wb <~ try_except (is_a AttributeError)
             (call (set_dynamic_array_formula wb cell range_str))
             (fun _ => return_ spill_unavailable) ;;
     _ <~ writing (save wb full_path) ;;
     return_ (applied formula range_str))
    (fun e => return_ (error_applying e)) st.
Proof.
  intros Hloads [Hin Hsheet].
  rewrite (apply_spill_formula_loaded _ _ _ _ _ _ _ _ Hloads).
  rewrite bool_decide_eq_false_2 by (intros Hnot; exact (Hnot Hin)).
  unfold try_except at 1 3. unfold bind at 1, call at 1. by rewrite Hsheet.
Qed.

(** The sheet is looked up before anything else is examined. *)
Lemma apply_spill_formula_missing_sheet st filepath full_path wb sheet_name
    start_cell end_cell formula :
  loads st filepath full_path wb ->
  sheet_name ∉ sheetnames wb ->
  apply_spill_formula filepath sheet_name start_cell end_cell formula st =
  (Return (sheet_not_found sheet_name), st).
Proof.
  intros Hloads Hnot.
  rewrite (apply_spill_formula_loaded _ _ _ _ _ _ _ _ Hloads).
  by rewrite bool_decide_eq_true_2.
Qed.

(** The outcome of the block that validates the references. *)
Lemma validate_ordered st start_cell end_cell a b :
  resolves start_cell end_cell a b ->
  a.1 <= b.1 -> a.2 <= b.2 ->
  validate_cell_references start_cell end_cell st = (Next tt, st).
Proof.
  intros [Ha Hb] Hrow Hcol. destruct a as [ar ac], b as [br bc]; simpl in *.
  unfold validate_cell_references, try_except, bind, call.
  rewrite Ha; simpl. rewrite Hb; simpl. rewrite !Z.gtb_ltb.
  rewrite (proj2 (Z.ltb_ge br ar)), (proj2 (Z.ltb_ge bc ac)) by lia.
  reflexivity.
Qed.

Lemma validate_reversed st start_cell end_cell a b :
  resolves start_cell end_cell a b ->
  a.1 > b.1 \/ a.2 > b.2 ->
  validate_cell_references start_cell end_cell st = (Return invalid_range, st).
Proof.
  intros [Ha Hb] Hgt. destruct a as [ar ac], b as [br bc]; simpl in *.
  unfold validate_cell_references, try_except, bind, call.
  rewrite Ha; simpl. rewrite Hb; simpl.
  replace ((ar >? br) || (ac >? bc)) with true; [reflexivity|].
  symmetry. apply orb_true_iff. rewrite !Z.gtb_ltb, !Z.ltb_lt. lia.
Qed.

Lemma validate_value_error st start_cell end_cell message :
  coordinate_to_tuple start_cell = Err (Exn ValueError message) ->
  validate_cell_references start_cell end_cell st = (Return invalid_reference, st).
Proof.
  intros Ha. unfold validate_cell_references, try_except, bind, call.
  by rewrite Ha.
Qed.

Lemma validate_value_error_end st start_cell end_cell a message :
  coordinate_to_tuple start_cell = Ok a ->
  coordinate_to_tuple end_cell = Err (Exn ValueError message) ->
  validate_cell_references start_cell end_cell st = (Return invalid_reference, st).
Proof.
  intros Ha Hb. unfold validate_cell_references, try_except, bind, call.
  rewrite Ha. destruct a. by rewrite Hb.
Qed.

(** A call whose steps all succeed saves the workbook and confirms. *)
Lemma apply_spill_formula_success st filepath full_path wb sheet_name sheet
    start_cell end_cell formula a b wb' st' :
  loads st filepath full_path wb ->
  has_sheet wb sheet_name sheet ->
  resolves start_cell end_cell a b ->
  a.1 <= b.1 -> a.2 <= b.2 ->
  writes wb sheet start_cell end_cell formula wb' ->
  save wb' full_path st = Ok st' ->
  apply_spill_formula filepath sheet_name start_cell end_cell formula st =
  (Return (applied formula (start_cell +:+ ":" +:+ end_cell)), st').
Proof.
  intros Hloads Hsheet Hres Hrow Hcol (cell & wb1 & wb2 & Hcell & Hvalue & Hspill) Hsave.
  rewrite (apply_spill_formula_opened _ _ _ _ _ _ _ _ _ Hloads Hsheet).
  unfold try_except at 1. unfold bind at 1.
  rewrite (validate_ordered _ _ _ _ _ Hres Hrow Hcol).
  unfold bind, call, try_except, writing, return_.
  by rewrite Hcell, Hvalue, Hspill, Hsave.
Qed.

(** Strings the tool returns are told apart by their first characters. *)
Lemma error_applying_not_invalid_range e : error_applying e <> invalid_range.
Proof. intros H. apply (f_equal (String.get 5)) in H. vm_compute in H. discriminate. Qed.

Lemma applied_not_invalid_range formula range_str :
  applied formula range_str <> invalid_range.
Proof. intros H. apply (f_equal (String.get 0)) in H. vm_compute in H. discriminate. Qed.

Lemma sheet_not_found_not_invalid_range sheet_name :
  sheet_not_found sheet_name <> invalid_range.
Proof. intros H. apply (f_equal (String.get 7)) in H. vm_compute in H. discriminate. Qed.

Lemma sheet_not_found_not_invalid_reference sheet_name :
  sheet_not_found sheet_name <> invalid_reference.
Proof. intros H. apply (f_equal (String.get 7)) in H. vm_compute in H. discriminate. Qed.

Lemma contains_applied_formula formula range_str :
  contains (applied formula range_str) formula.
Proof.
  exists "Applied dynamic array formula '", ("' to range " +:+ range_str).
  reflexivity.
Qed.

Lemma contains_applied_range formula range_str :
  contains (applied formula range_str) range_str.
Proof.
  exists ("Applied dynamic array formula '" +:+ formula +:+ "' to range "), EmptyString.
  unfold applied. by rewrite append_empty_r, !append_assoc.
Qed.

(* closes a goal that tells a returned message from the invalid-range error *)
Ltac differs :=
  simpl; intros Heq; inversion Heq as [Heq'];
  first [ by apply error_applying_not_invalid_range in Heq'
        | by apply applied_not_invalid_range in Heq'
        | discriminate Heq' ].

(** C1 (as amended): a call with an existing sheet and two references
    the library accepts, in order, returns the confirmation
    "Applied dynamic array formula '<formula>' to range <START>:<END>"
    and saves the workbook, provided the library assigns the formula, has
    [set_dynamic_array_formula] and saves without raising; the
    confirmation contains the formula and "<START>:<END>". *)
Theorem valid_request_confirmed st filepath full_path wb sheet_name sheet
    start_cell end_cell formula a b wb' st' :
  loads st filepath full_path wb ->
  has_sheet wb sheet_name sheet ->
  resolves start_cell end_cell a b ->
  a.1 <= b.1 -> a.2 <= b.2 ->
  writes wb sheet start_cell end_cell formula wb' ->
  save wb' full_path st = Ok st' ->
  apply_spill_formula filepath sheet_name start_cell end_cell formula st =
    (Return (applied formula (start_cell +:+ ":" +:+ end_cell)), st') /\
  contains (applied formula (start_cell +:+ ":" +:+ end_cell)) formula /\
  contains (applied formula (start_cell +:+ ":" +:+ end_cell))
           (start_cell +:+ ":" +:+ end_cell).
Proof.
  intros. split; [by eapply apply_spill_formula_success|].
  split; [apply contains_applied_formula | apply contains_applied_range].
Qed.

(** C2: when the references resolve to [a] and [b] with
    [a.row <= b.row] and [a.column <= b.column], the range from [a] to [b]
    is accepted (also when [a = b]): validation passes and the call does
    not report an invalid range; the range from [b] to [a] is refused with
    the invalid-range error whenever [a <> b], and nothing is swapped. *)
Theorem range_order_enforced st filepath full_path wb sheet_name sheet
    first second formula a b :
  loads st filepath full_path wb ->
  has_sheet wb sheet_name sheet ->
  resolves first second a b ->
  a.1 <= b.1 -> a.2 <= b.2 ->
  validate_cell_references first second st = (Next tt, st) /\
  (apply_spill_formula filepath sheet_name first second formula st).1
    <> Return invalid_range /\
  (a <> b ->
   validate_cell_references second first st = (Return invalid_range, st) /\
   apply_spill_formula filepath sheet_name second first formula st =
     (Return invalid_range, st)).
Proof.
  intros Hloads Hsheet Hres Hrow Hcol.
  pose proof (validate_ordered st _ _ _ _ Hres Hrow Hcol) as Hvalid.
  split; [exact Hvalid|]. split.
  - rewrite (apply_spill_formula_opened _ _ _ _ _ _ _ _ _ Hloads Hsheet).
    unfold try_except at 1. unfold bind at 1. rewrite Hvalid.
    unfold bind, call, try_except, writing, return_, any_exception.
    destruct (ws_getitem wb sheet first) as [[cell wb1]|e]; [|differs].
    destruct (set_value wb1 cell formula) as [wb2|e]; [|differs].
    destruct (set_dynamic_array_formula wb2 cell _) as [wb3|[[] ?]]; [|differs..].
    destruct (save wb3 _ st) as [st'|e]; differs.
  - intros Hne.
    assert (b.1 > a.1 \/ b.2 > a.2) as Hgt.
    { destruct a as [ar ac], b as [br bc]; simpl in *.
      destruct (decide (ar = br)) as [->|]; [|lia].
      destruct (decide (ac = bc)) as [->|]; [done|lia]. }
    destruct Hres as [Ha Hb].
    pose proof (validate_reversed st second first b a (conj Hb Ha) Hgt) as Hrev.
    split; [exact Hrev|].
    rewrite (apply_spill_formula_opened _ _ _ _ _ _ _ _ _ Hloads Hsheet).
    unfold try_except at 1. unfold bind at 1. by rewrite Hrev.
Qed.

(** C3 (as amended): the tool does not examine the formula text.  A
    formula that does not begin with "=" after trimming is assigned to the
    start cell as it is, and when the library's steps succeed the call
    confirms it and saves the workbook; no empty-formula error exists. *)
Theorem formula_not_validated st filepath full_path wb sheet_name sheet
    start_cell end_cell formula a b cell wb1 wb2 wb3 st' :
  begins_with_equals (trim formula) = false ->
  loads st filepath full_path wb ->
  has_sheet wb sheet_name sheet ->
  resolves start_cell end_cell a b ->
  a.1 <= b.1 -> a.2 <= b.2 ->
  ws_getitem wb sheet start_cell = Ok (cell, wb1) ->
  set_value wb1 cell formula = Ok wb2 ->
  set_dynamic_array_formula wb2 cell (start_cell +:+ ":" +:+ end_cell) = Ok wb3 ->
  save wb3 full_path st = Ok st' ->
  apply_spill_formula filepath sheet_name start_cell end_cell formula st =
    (Return (applied formula (start_cell +:+ ":" +:+ end_cell)), st').
Proof.
  intros _ Hloads Hsheet Hres Hrow Hcol Hcell Hvalue Hspill Hsave.
  eapply apply_spill_formula_success; eauto.
  by exists cell, wb1, wb2.
Qed.

(** C7: when the sheet name is not among the sheets of the loaded
    workbook, the call returns the error "Error: Sheet '<name>' not found",
    which names the missing sheet, and the storage is unchanged. *)
Theorem missing_sheet_reported st filepath full_path wb sheet_name
    start_cell end_cell formula :
  loads st filepath full_path wb ->
  sheet_name ∉ sheetnames wb ->
  apply_spill_formula filepath sheet_name start_cell end_cell formula st =
    (Return (sheet_not_found sheet_name), st) /\
  failed (sheet_not_found sheet_name) = true /\
  contains (sheet_not_found sheet_name) sheet_name.
Proof.
  intros Hloads Hnot. split; [by eapply apply_spill_formula_missing_sheet|].
  split; [reflexivity|]. by exists "Error: Sheet '", "' not found".
Qed.

(** C8: every call returns a string and never lets an exception escape;
    either the string is the confirmation and the storage is what [save]
    produced, or it is an error message and the storage is the one the
    call started with. *)
Theorem failure_returned_storage_kept st filepath sheet_name start_cell end_cell formula :
  exists message st',
    apply_spill_formula filepath sheet_name start_cell end_cell formula st =
      (Return message, st') /\
    ((failed message = false /\
      message = applied formula (start_cell +:+ ":" +:+ end_cell) /\
      exists wb full_path, save wb full_path st = Ok st') \/
     (failed message = true /\ st' = st)).
Proof.
  unfold apply_spill_formula, validate_cell_references, get_excel_path.
  unfold try_except, bind, reading, writing, call, return_, ret, any_exception.
  destruct (makedirs _) as [[]|e]; [|returned].
  destruct (load_workbook st _) as [wb|e]; [|returned].
  case_bool_decide; [returned|].
  destruct (wb_getitem wb sheet_name) as [sheet|e]; [|returned].
  destruct (coordinate_to_tuple start_cell) as [[start_row start_col]|[[] ?]];
    [|returned..].
  destruct (coordinate_to_tuple end_cell) as [[end_row end_col]|[[] ?]];
    [|returned..].
  destruct ((start_row >? end_row) || (start_col >? end_col)); [returned|].
  destruct (ws_getitem wb sheet start_cell) as [[cell wb1]|e]; [|returned].
  destruct (set_value wb1 cell formula) as [wb2|e]; [|returned].
  destruct (set_dynamic_array_formula wb2 cell _) as [wb3|[[] ?]]; [|returned..].
  destruct (save wb3 _ st) as [st'|e] eqn:Hsave; [|returned].
  eexists _, _. split; [reflexivity|]. left. eauto.
Qed.

(** C10: the sheet is checked before the references.  When the sheet is
    absent the call reports the missing sheet whatever the start and end
    references are, also when the library would refuse them or when they
    are in the wrong order; it reports neither an invalid reference nor an
    invalid range. *)
Theorem sheet_checked_before_references st filepath full_path wb sheet_name
    start_cell end_cell formula :
  loads st filepath full_path wb ->
  sheet_name ∉ sheetnames wb ->
  (apply_spill_formula filepath sheet_name start_cell end_cell formula st).1 =
    Return (sheet_not_found sheet_name) /\
  (apply_spill_formula filepath sheet_name start_cell end_cell formula st).1 <>
    Return invalid_reference /\
  (apply_spill_formula filepath sheet_name start_cell end_cell formula st).1 <>
    Return invalid_range.
Proof.
  intros Hloads Hnot.
  rewrite (apply_spill_formula_missing_sheet _ _ _ _ _ _ _ _ Hloads Hnot).
  simpl. split; [reflexivity|].
  split; intros Heq.
  - apply (sheet_not_found_not_invalid_reference sheet_name). congruence.
  - apply (sheet_not_found_not_invalid_range sheet_name). congruence.
Qed.

End ToolProperties.

(** * The tool on the document library *)

(** The request of [test_apply_unique_formula]: the call is confirmed and
    the confirmation contains the formula and the range. *)
Lemma unique_formula_confirmed :
  exists st',
    apply_spill_formula (L := document_library true)
      "test_spill.xlsx" "Sheet" "D1" "D10" "=UNIQUE(A1:A10)" test_storage =
      (Return "Applied dynamic array formula '=UNIQUE(A1:A10)' to range D1:D10", st') /\
    contains "Applied dynamic array formula '=UNIQUE(A1:A10)' to range D1:D10"
             "=UNIQUE(A1:A10)" /\
    contains "Applied dynamic array formula '=UNIQUE(A1:A10)' to range D1:D10"
             "D1:D10".
Proof.
  eexists.
  eapply (valid_request_confirmed (L := document_library true)
            test_storage "test_spill.xlsx" _ new_workbook "Sheet" "Sheet"
            "D1" "D10" "=UNIQUE(A1:A10)" (1, 4) (10, 4)).
  - split; reflexivity.
  - split; [constructor | reflexivity].
  - split; reflexivity.
  - simpl; lia.
  - simpl; lia.
  - eexists _, _, _. split; [reflexivity|]. split; reflexivity.
  - reflexivity.
Defined.

(** Without the spill extension the same request, on an existing sheet
    with valid references in order, is not confirmed. *)
Lemma unique_formula_without_spill_support :
  "Sheet" ∈ sheetnames (DocLib := document_library false) new_workbook /\
  coordinate_to_tuple (DocLib := document_library false) "D1" = Ok (1, 4) /\
  coordinate_to_tuple (DocLib := document_library false) "D10" = Ok (10, 4) /\
  apply_spill_formula (L := document_library false)
    "test_spill.xlsx" "Sheet" "D1" "D10" "=UNIQUE(A1:A10)" test_storage =
    (Return spill_unavailable, test_storage) /\
  spill_unavailable <> applied "=UNIQUE(A1:A10)" "D1:D10".
Proof.
  split; [constructor|]. split; [reflexivity|]. split; [reflexivity|].
  split; [reflexivity|]. discriminate.
Qed.

(** The range D1:D5 is accepted, D5:D1 is refused
    ([test_invalid_range_specification]). *)
Lemma reversed_range_refused :
  validate_cell_references (L := document_library true) "D1" "D5" test_storage =
    (Next tt, test_storage) /\
  apply_spill_formula (L := document_library true)
    "test_spill.xlsx" "Sheet" "D5" "D1" "=UNIQUE(A1:A10)" test_storage =
    (Return "Error: Invalid range specification: start_cell must be before end_cell",
     test_storage).
Proof.
  destruct (range_order_enforced (L := document_library true)
              test_storage "test_spill.xlsx" "/tmp/excel_files/test_spill.xlsx"
              new_workbook "Sheet" "Sheet" "D1" "D5" "=UNIQUE(A1:A10)"
              (1, 4) (5, 4)) as (Hfirst & _ & Hsecond).
  - split; reflexivity.
  - split; [constructor | reflexivity].
  - split; reflexivity.
  - simpl; lia.
  - simpl; lia.
  - split; [exact Hfirst|]. apply Hsecond. discriminate.
Defined.

(** A text without "=" is confirmed like any formula. *)
Lemma text_without_equals_confirmed :
  exists st',
    apply_spill_formula (L := document_library true)
      "test_spill.xlsx" "Sheet" "A1" "A3" "UNIQUE(A1:A10)" test_storage =
      (Return "Applied dynamic array formula 'UNIQUE(A1:A10)' to range A1:A3", st').
Proof.
  eexists.
  eapply (formula_not_validated (L := document_library true)
            test_storage "test_spill.xlsx" _ new_workbook "Sheet" "Sheet"
            "A1" "A3" "UNIQUE(A1:A10)" (1, 1) (3, 1)).
  - reflexivity.
  - split; reflexivity.
  - split; [constructor | reflexivity].
  - split; reflexivity.
  - simpl; lia.
  - simpl; lia.
  - reflexivity.
  - reflexivity.
  - reflexivity.
  - reflexivity.
Defined.

(** A text that does not begin with "=", and the empty text, are
    confirmed and written to the anchor cell of the saved workbook. *)
Lemma text_without_equals_written :
  begins_with_equals (trim "UNIQUE(A1:A10)") = false /\
  (apply_spill_formula (L := document_library true)
     "test_spill.xlsx" "Sheet" "A1" "A3" "UNIQUE(A1:A10)" test_storage).1 =
    Return "Applied dynamic array formula 'UNIQUE(A1:A10)' to range A1:A3" /\
  stored_cell
    (apply_spill_formula (L := document_library true)
       "test_spill.xlsx" "Sheet" "A1" "A3" "UNIQUE(A1:A10)" test_storage).2
    "/tmp/excel_files/test_spill.xlsx" "Sheet" (1, 1) =
    Some (ArrayAnchor "UNIQUE(A1:A10)" "A1:A3") /\
  begins_with_equals (trim "") = false /\
  (apply_spill_formula (L := document_library true)
     "test_spill.xlsx" "Sheet" "A1" "A3" "" test_storage).1 =
    Return "Applied dynamic array formula '' to range A1:A3".
Proof. repeat split; vm_compute; reflexivity. Qed.

(** The request of [test_invalid_sheet_name]. *)
Lemma invalid_sheet_reported :
  apply_spill_formula (L := document_library true)
    "test_spill.xlsx" "InvalidSheet" "A1" "A5" "=UNIQUE(A1:A10)" test_storage =
    (Return "Error: Sheet 'InvalidSheet' not found", test_storage) /\
  failed "Error: Sheet 'InvalidSheet' not found" = true /\
  contains "Error: Sheet 'InvalidSheet' not found" "InvalidSheet".
Proof.
  apply (missing_sheet_reported (L := document_library true)
           test_storage "test_spill.xlsx" "/tmp/excel_files/test_spill.xlsx"
           new_workbook "InvalidSheet" "A1" "A5" "=UNIQUE(A1:A10)").
  - split; reflexivity.
  - apply not_elem_of_cons. split; [discriminate | apply not_elem_of_nil].
Defined.

(** A missing sheet is reported although the start reference is malformed
    and the range is of no use. *)
Lemma missing_sheet_before_malformed_reference :
  coordinate_to_tuple (DocLib := document_library true) "INVALID" =
    Err (Exn ValueError "Invalid cell reference: INVALID") /\
  (apply_spill_formula (L := document_library true)
     "test_spill.xlsx" "InvalidSheet" "INVALID" "A0" "=UNIQUE(A1:A10)" test_storage).1 =
    Return "Error: Sheet 'InvalidSheet' not found" /\
  (apply_spill_formula (L := document_library true)
     "test_spill.xlsx" "InvalidSheet" "INVALID" "A0" "=UNIQUE(A1:A10)" test_storage).1 <>
    Return invalid_reference /\
  (apply_spill_formula (L := document_library true)
     "test_spill.xlsx" "InvalidSheet" "INVALID" "A0" "=UNIQUE(A1:A10)" test_storage).1 <>
    Return invalid_range.
Proof.
  split; [reflexivity|].
  apply (sheet_checked_before_references (L := document_library true)
           test_storage "test_spill.xlsx" "/tmp/excel_files/test_spill.xlsx"
           new_workbook "InvalidSheet" "INVALID" "A0" "=UNIQUE(A1:A10)").
  - split; reflexivity.
  - apply not_elem_of_cons. split; [discriminate | apply not_elem_of_nil].
Defined.

(** * Coordinate Resolver *)

Lemma span_spec (p : ascii -> bool) (s taken rest : string) :
  span p s = (taken, rest) ->
  s = taken +:+ rest /\ all_chars p taken = true.
Proof.
  revert taken rest. induction s as [|c s IH]; intros taken rest; simpl.
  - by intros [= <- <-].
  - destruct (p c) eqn:Hc.
    + destruct (span p s) as [taken' rest'] eqn:Hspan. intros [= <- <-].
      destruct (IH _ _ eq_refl) as [-> Hall]. split; [reflexivity|].
      simpl. by rewrite Hc, Hall.
    + by intros [= <- <-].
Qed.

Lemma span_append (p : ascii -> bool) (taken : string) (c : ascii) (rest : string) :
  all_chars p taken = true -> p c = false ->
  span p (taken +:+ String c rest) = (taken, String c rest).
Proof.
  intros Hall Hc. induction taken as [|d taken IH].
  - change (EmptyString +:+ String c rest) with (String c rest).
    simpl. by rewrite Hc.
  - simpl in Hall. apply andb_true_iff in Hall as [Hd Hall].
    change (String d taken +:+ String c rest)
      with (String d (taken +:+ String c rest)).
    simpl. by rewrite Hd, (IH Hall).
Qed.

Lemma digit_not_upper (c : ascii) : is_digit c = true -> is_upper c = false.
Proof.
  unfold is_digit, is_upper. rewrite andb_true_iff, !Z.leb_le. intros [_ H].
  apply andb_false_iff. left. apply Z.leb_gt. lia.
Qed.

(** A text that matches the grammar splits at its first digit. *)
Lemma matches_grammar_span (s letters digits : string) :
  matches_grammar s letters digits -> span is_upper s = (letters, digits).
Proof.
  intros (-> & _ & Hletters & Hne & Hdigits).
  destruct digits as [|c digits]; [done|].
  simpl in Hdigits. apply andb_true_iff in Hdigits as [Hc _].
  by apply span_append; [|apply digit_not_upper].
Qed.

(** [parse] accepts exactly the valid references. *)
Lemma parse_success_valid (reference : string) (c : Coordinate) :
  parse reference = Success c -> valid_reference reference.
Proof.
  unfold parse, valid_reference.
  destruct (span is_upper (upper reference)) as [letters digits] eqn:Hspan.
  apply span_spec in Hspan as [Hsplit Hletters].
  repeat case_bool_decide; try discriminate.
  destruct (all_chars is_digit digits) eqn:Hdigits; [|discriminate]. simpl.
  destruct (row_number 0 digits =? 0) eqn:Hrow; [discriminate|].
  intros _. exists letters, digits. apply Z.eqb_neq in Hrow.
  by repeat split.
Qed.

Lemma valid_parse_success (reference : string) :
  valid_reference reference ->
  exists letters digits,
    matches_grammar (upper reference) letters digits /\
    parse reference = Success (row_number 0 digits, column_number 0 letters).
Proof.
  intros (letters & digits & Hgrammar & Hrow).
  exists letters, digits. split; [exact Hgrammar|].
  unfold parse. rewrite (matches_grammar_span _ _ _ Hgrammar).
  destruct Hgrammar as (_ & Hl & _ & Hd & Hdigits).
  rewrite !bool_decide_eq_false_2 by done. rewrite Hdigits. simpl.
  by apply Z.eqb_neq in Hrow as ->.
Qed.

Lemma parse_failure_kind (reference : string) (k : error_kind) :
  parse reference = Failure k -> k = InvalidReference.
Proof.
  unfold parse. destruct (span is_upper (upper reference)) as [letters digits].
  repeat case_match; congruence.
Qed.

(** The references of section 4.1 that must fail do fail. *)
Lemma parse_rejects (reference : string) :
  malformed reference -> parse reference = Failure InvalidReference.
Proof.
  intros Hbad. destruct (parse reference) as [c|k] eqn:Hparse.
  - exfalso. apply parse_success_valid in Hparse as Hvalid.
    destruct Hvalid as (letters & digits & Hgrammar & Hrow).
    destruct Hbad as [Hno | [(letters' & digits' & Hgrammar' & Hzero) | ->]].
    + apply Hno. by exists letters, digits.
    + apply matches_grammar_span in Hgrammar, Hgrammar'.
      rewrite Hgrammar in Hgrammar'. by simplify_eq.
    + by destruct Hgrammar as (Hsplit & Hl & _); destruct letters.
  - f_equal. by eapply parse_failure_kind.
Qed.

Section Resolver.
Context {L : DocLib}.

(** C4: with the Coordinate Resolver as the library's
    [coordinate_to_tuple], a start or end reference that does not match
    the grammar (letters, then digits, nothing else), or whose digits
    denote row 0, or that is empty, fails to parse with [InvalidReference],
    and the call on an existing sheet returns
    "Error: Invalid cell reference" and leaves the storage as it was. *)
Theorem malformed_reference_reported (st : Storage) filepath full_path
    (wb : Workbook) sheet_name (sheet : Worksheet) start_cell end_cell formula :
  resolves_by_parse L ->
  loads st filepath full_path wb ->
  has_sheet wb sheet_name sheet ->
  malformed start_cell \/ malformed end_cell ->
  (parse start_cell = Failure InvalidReference \/
   parse end_cell = Failure InvalidReference) /\
  apply_spill_formula filepath sheet_name start_cell end_cell formula st =
    (Return invalid_reference, st).
Proof.
  intros Hparse Hloads Hsheet Hbad.
  assert (parse start_cell = Failure InvalidReference \/
          (exists a, parse start_cell = Success a) /\
          parse end_cell = Failure InvalidReference) as Hfail.
  { destruct (parse start_cell) as [a|k] eqn:Hstart.
    - right. split; [by exists a|].
      destruct Hbad as [Hbad|Hbad]; [|by apply parse_rejects].
      apply parse_rejects in Hbad. congruence.
    - left. f_equal. by eapply parse_failure_kind. }
  split; [tauto|].
  rewrite (apply_spill_formula_opened _ _ _ _ _ _ _ _ _ Hloads Hsheet).
  unfold try_except at 1. unfold bind at 1.
  destruct Hfail as [Hstart | [[a Hstart] Hend]].
  - pose proof (Hparse start_cell) as Hs. rewrite Hstart in Hs.
    destruct Hs as [message Hs].
    by rewrite (validate_value_error _ _ _ _ Hs).
  - pose proof (Hparse start_cell) as Hs. rewrite Hstart in Hs.
    pose proof (Hparse end_cell) as He. rewrite Hend in He.
    destruct He as [message He].
    by rewrite (validate_value_error_end _ _ _ _ _ Hs He).
Qed.

End Resolver.

Lemma document_library_resolves_by_parse (spill_support : bool) :
  resolves_by_parse (document_library spill_support).
Proof.
  intros reference. simpl. unfold resolve.
  destruct (parse reference); [reflexivity|]. by eexists.
Qed.

(** The request of [test_invalid_cell_reference]. *)
Lemma invalid_start_reference_reported :
  (parse "INVALID" = Failure InvalidReference \/
   parse "A5" = Failure InvalidReference) /\
  apply_spill_formula (L := document_library true)
    "test_spill.xlsx" "Sheet" "INVALID" "A5" "=UNIQUE(A1:A10)" test_storage =
    (Return "Error: Invalid cell reference", test_storage).
Proof.
  apply (malformed_reference_reported (L := document_library true)
           test_storage "test_spill.xlsx" "/tmp/excel_files/test_spill.xlsx"
           new_workbook "Sheet" "Sheet" "INVALID" "A5" "=UNIQUE(A1:A10)").
  - apply document_library_resolves_by_parse.
  - split; reflexivity.
  - split; [constructor | reflexivity].
  - left. left. intros (letters & digits & Hgrammar).
    pose proof (matches_grammar_span _ _ _ Hgrammar) as Hspan.
    vm_compute in Hspan. destruct Hgrammar as (_ & _ & _ & Hne & _).
    by simplify_eq.
Defined.

(** * Formula Rewriter *)

Lemma concat_strings_app (l1 l2 : list string) :
  concat_strings (l1 ++ l2) = concat_strings l1 +:+ concat_strings l2.
Proof.
  induction l1 as [|s l1 IH]; [reflexivity|].
  simpl. by rewrite IH, append_assoc.
Qed.

Lemma snoc_append (s : string) (c : ascii) (rest : string) :
  snoc s c +:+ rest = s +:+ String c rest.
Proof. unfold snoc. by rewrite append_assoc. Qed.

Lemma pending_source (identifier : string) :
  concat_strings (source_text <$> pending identifier) = identifier.
Proof.
  unfold pending. case_bool_decide as Hid; simpl; [done|].
  apply append_empty_r.
Qed.

Lemma concat_strings_cons (s : string) (l : list string) :
  concat_strings (s :: l) = s +:+ concat_strings l.
Proof. reflexivity. Qed.

(* spells out the text of a list of tokens, leaving [scan] folded *)
Ltac spell :=
  rewrite ?fmap_app, ?fmap_cons, ?concat_strings_app, ?concat_strings_cons,
    ?pending_source;
  cbn [source_text held];
  rewrite ?snoc_append, ?append_assoc.

(** Tokenizing loses nothing: the tokens spell the text. *)
Lemma scan_source (s : string) :
  (forall state,
     concat_strings (source_text <$> scan state s) = held state +:+ s) /\
  (forall c state,
     concat_strings (source_text <$> scan state (String c s)) =
     held state +:+ String c s).
Proof.
  induction s as [|d s [IHs IHd]].
  - split.
    + intros [identifier|literal]; simpl.
      * by rewrite pending_source, append_empty_r.
      * by rewrite !append_empty_r.
    + intros c [identifier|literal]; simpl.
      * repeat case_match; simpl;
          rewrite ?fmap_app, ?concat_strings_app, ?pending_source; simpl;
          rewrite ?pending_source, ?append_empty_r, ?snoc_append; done.
      * repeat case_match; simpl; by rewrite ?append_empty_r, ?snoc_append.
  - split; [exact (IHd d)|].
    intros c [identifier|literal].
    + change (scan (Outside identifier) (String c (String d s))) with
        (if is_quote c then
           pending identifier ++ scan (Inside (String c EmptyString)) (String d s)
         else if is_identifier_char c then
           scan (Outside (snoc identifier c)) (String d s)
         else if is_open_paren c && negb (bool_decide (identifier = EmptyString)) then
           Call identifier :: Other (String c EmptyString)
             :: scan (Outside EmptyString) (String d s)
         else
           pending identifier ++ Other (String c EmptyString)
             :: scan (Outside EmptyString) (String d s)).
      repeat case_match; spell; rewrite ?IHd; spell; done.
    + change (scan (Inside literal) (String c (String d s))) with
        (if is_quote c then
           if is_quote d
           then scan (Inside (snoc (snoc literal c) d)) s
           else Literal (snoc literal c) :: scan (Outside EmptyString) (String d s)
         else scan (Inside (snoc literal c)) (String d s)).
      repeat case_match; spell; rewrite ?IHd, ?IHs; spell; done.
Qed.

Lemma tokenize_source (formula : string) :
  concat_strings (source_text <$> tokenize formula) = formula.
Proof. unfold tokenize. by rewrite (proj1 (scan_source formula)). Qed.

Section RewriterProperties.
Variable table : gmap string string.

Lemma rewrite_tokens_unlisted (tokens : list token) :
  (forall identifier, Call identifier ∈ tokens -> table !! upper identifier = None) ->
  concat_strings (rewrite_token table <$> tokens) =
  concat_strings (source_text <$> tokens).
Proof.
  induction tokens as [|t tokens IH]; intros Hcalls; [reflexivity|].
  rewrite !fmap_cons. simpl. rewrite IH.
  - f_equal. destruct t as [text|identifier|text]; simpl; try reflexivity.
    rewrite Hcalls; [reflexivity | by left].
  - intros identifier Hin. apply Hcalls. by right.
Qed.

(** C6: when no function-call identifier of the formula is in the
    Compatibility Table, rewriting is the identity: the text to store for
    the anchor cell is character for character the input formula. *)
Theorem rewrite_unlisted_identity (formula : string) :
  (forall identifier,
     identifier ∈ call_identifiers formula -> table !! upper identifier = None) ->
  rewrite_formula table formula = formula.
Proof.
  intros Hcalls. unfold rewrite_formula.
  rewrite rewrite_tokens_unlisted; [apply tokenize_source|].
  intros identifier Hin. apply Hcalls. unfold call_identifiers.
  apply list_elem_of_omap. by exists (Call identifier).
Qed.

(** C5: rewriting "=SORT(B2:B8,,-1)" replaces the function-call token
    SORT by the prefix the Compatibility Table requires for it followed by
    the identifier, and leaves the argument list "(B2:B8,,-1)" as it is. *)
Theorem rewrite_sort (required_prefix : string) :
  table !! "SORT" = Some required_prefix ->
  rewrite_formula table "=SORT(B2:B8,,-1)" =
  "=" +:+ required_prefix +:+ "SORT" +:+ "(B2:B8,,-1)".
Proof.
  intros Hsort. unfold rewrite_formula.
  replace (tokenize "=SORT(B2:B8,,-1)") with
    [Other "="; Call "SORT"; Other "("; Other "B2"; Other ":"; Other "B8";
     Other ","; Other ","; Other "-"; Other "1"; Other ")"]
    by (vm_compute; reflexivity).
  rewrite !fmap_cons. unfold rewrite_token at 2.
  change (upper "SORT") with "SORT". rewrite Hsort.
  simpl. by rewrite !append_assoc.
Qed.

End RewriterProperties.

(** With the prefix of the specification's example. *)
Lemma rewrite_sort_xlfn :
  rewrite_formula {[ "SORT" := "_xlfn." ]} "=SORT(B2:B8,,-1)" =
  "=_xlfn.SORT(B2:B8,,-1)".
Proof.
  apply (rewrite_sort {[ "SORT" := "_xlfn." ]} "_xlfn."). reflexivity.
Defined.

(** SUM is not in the table: the formula stays as it is. *)
Lemma rewrite_sum_unchanged :
  rewrite_formula {[ "SORT" := "_xlfn." ]} "=SUM(B2:B8)" = "=SUM(B2:B8)".
Proof.
  apply (rewrite_unlisted_identity {[ "SORT" := "_xlfn." ]} "=SUM(B2:B8)").
  intros identifier Hin. vm_compute in Hin.
  apply list_elem_of_singleton in Hin as ->. reflexivity.
Defined.

(** * Serializer *)

Lemma elem_of_range_cells (r : CellRange) (c : Coordinate) :
  c ∈ range_cells r <->
  row (range_start r) <= row c <= row (range_end r) /\
  column (range_start r) <= column c <= column (range_end r).
Proof.
  unfold range_cells, height, width. destruct c as [cr cc]. unfold row, column.
  rewrite list_elem_of_bind. split.
  - intros (row_ & Hcol & Hrow). apply list_elem_of_bind in Hcol as (column_ & Hc & Hcol).
    apply list_elem_of_singleton in Hc as [= -> ->].
    apply elem_of_seqZ in Hrow, Hcol. simpl. lia.
  - simpl. intros [Hrow Hcol]. exists cr. split.
    + apply list_elem_of_bind. exists cc. split; [by apply list_elem_of_singleton|].
      apply elem_of_seqZ. lia.
    + apply elem_of_seqZ. lia.
Qed.

(** What marking the members of a list of cells leaves in a cell. *)
Lemma mark_members_lookup (anchor_ : Coordinate) (l : list Coordinate)
    (cells : gmap Coordinate CellContent) (c : Coordinate) :
  foldl
    (fun cells coordinate =>
       if decide (coordinate = anchor_) then cells
       else mark_cell_as_spill_member cells coordinate anchor_)
    cells l !! c =
  if decide (c ∈ l /\ c <> anchor_) then Some (SpillMember anchor_) else cells !! c.
Proof.
  revert cells. induction l as [|x l IH]; intros cells; cbn [foldl].
  - destruct (decide (c ∈ [] /\ c <> anchor_)) as [[Hin _]|_]; [|done].
    by apply not_elem_of_nil in Hin.
  - rewrite IH.
    destruct (decide (c ∈ l /\ c <> anchor_)) as [[Hin Hne]|Hnot];
      destruct (decide (c ∈ x :: l /\ c <> anchor_)) as [[Hin' Hne']|Hnot'];
      try done.
    + exfalso. apply Hnot'. split; [by right|done].
    + apply elem_of_cons in Hin' as [->|Hin']; [|by destruct Hnot].
      rewrite decide_False by done. unfold mark_cell_as_spill_member.
      by rewrite lookup_insert_eq.
    + destruct (decide (x = anchor_)) as [->|Hx]; [done|].
      unfold mark_cell_as_spill_member.
      destruct (decide (c = x)) as [->|Hc].
      * destruct Hnot'. split; [by left|done].
      * by rewrite lookup_insert_ne.
Qed.

Lemma apply_binding_anchor (cells : gmap Coordinate CellContent)
    (binding : SpillBinding) :
  apply_binding cells binding !! anchor binding =
  Some (ArrayAnchor (rewritten_formula binding) (range_text (range binding))).
Proof.
  unfold apply_binding. rewrite mark_members_lookup.
  destruct (decide (_ /\ _)) as [[_ Hne]|_]; [done|].
  unfold mark_cell_as_array_anchor. by rewrite lookup_insert_eq.
Qed.

(** C9: after the Serializer has applied a binding, every cell of the
    rectangle other than the anchor holds the placeholder of a spill member
    that refers to the anchor, and so carries no formula text; the anchor
    holds the formula. *)
Theorem spill_members_tagged (cells : gmap Coordinate CellContent)
    (binding : SpillBinding) (c : Coordinate) :
  row (range_start (range binding)) <= row c <= row (range_end (range binding)) ->
  column (range_start (range binding)) <= column c
    <= column (range_end (range binding)) ->
  c <> anchor binding ->
  apply_binding cells binding !! c = Some (SpillMember (anchor binding)) /\
  formula_text_of (SpillMember (anchor binding)) = None /\
  apply_binding cells binding !! anchor binding =
    Some (ArrayAnchor (rewritten_formula binding) (range_text (range binding))).
Proof.
  intros Hrow Hcol Hne. split; [|split; [reflexivity | apply apply_binding_anchor]].
  unfold apply_binding. rewrite mark_members_lookup.
  destruct (decide (_ /\ _)) as [_|Hnot]; [done|].
  destruct Hnot. split; [|done]. by apply elem_of_range_cells.
Qed.

(** The range A17:C19 of the sample: B18 is a spill member of A17. *)
Lemma filter_range_member_tagged :
  apply_binding {[ (17, 1) := Value "=FILTER(A2:C8,B2:B8>2000)" ]}
    {| anchor := (17, 1);
       range := {| range_start := (17, 1); range_end := (19, 3) |};
       rewritten_formula := "=FILTER(A2:C8,B2:B8>2000)" |} !! (18, 2) =
    Some (SpillMember (17, 1)) /\
  formula_text_of (SpillMember (17, 1)) = None /\
  apply_binding {[ (17, 1) := Value "=FILTER(A2:C8,B2:B8>2000)" ]}
    {| anchor := (17, 1);
       range := {| range_start := (17, 1); range_end := (19, 3) |};
       rewritten_formula := "=FILTER(A2:C8,B2:B8>2000)" |} !! (17, 1) =
    Some (ArrayAnchor "=FILTER(A2:C8,B2:B8>2000)" "A17:C19").
Proof.
  apply (spill_members_tagged
           {[ (17, 1) := Value "=FILTER(A2:C8,B2:B8>2000)" ]}
           {| anchor := (17, 1);
              range := {| range_start := (17, 1); range_end := (19, 3) |};
              rewritten_formula := "=FILTER(A2:C8,B2:B8>2000)" |} (18, 2)).
  - simpl. unfold row. simpl. lia.
  - simpl. unfold column. simpl. lia.
  - discriminate.
Defined.

(** The same range through the tool on the document library: the saved
    sheet has the formula in A17 and spill members in the eight other
    cells of A17:C19. *)
Lemma filter_range_saved :
  (apply_spill_formula (L := document_library true)
     "test_spill.xlsx" "Sheet" "A17" "C19" "=FILTER(A2:C8,B2:B8>2000)"
     test_storage).1 =
    Return "Applied dynamic array formula '=FILTER(A2:C8,B2:B8>2000)' to range A17:C19" /\
  stored_cell
    (apply_spill_formula (L := document_library true)
       "test_spill.xlsx" "Sheet" "A17" "C19" "=FILTER(A2:C8,B2:B8>2000)"
       test_storage).2
    "/tmp/excel_files/test_spill.xlsx" "Sheet" (17, 1) =
    Some (ArrayAnchor "=FILTER(A2:C8,B2:B8>2000)" "A17:C19") /\
  Forall
    (fun c =>
       stored_cell
         (apply_spill_formula (L := document_library true)
            "test_spill.xlsx" "Sheet" "A17" "C19" "=FILTER(A2:C8,B2:B8>2000)"
            test_storage).2
         "/tmp/excel_files/test_spill.xlsx" "Sheet" c =
       Some (SpillMember (17, 1)))
    [(17, 2); (17, 3); (18, 1); (18, 2); (18, 3); (19, 1); (19, 2); (19, 3)].
Proof.
  split; [vm_compute; reflexivity|]. split; [vm_compute; reflexivity|].
  repeat constructor; vm_compute; reflexivity.
Qed.

(** * More on the tool *)

(* closes a goal that tells a returned message from the invalid-range error *)
Ltac told_apart :=
  simpl; let Heq := fresh in let Heq' := fresh in
  intros Heq; inversion Heq as [Heq'];
  first [ by apply error_applying_not_invalid_range in Heq'
        | by apply applied_not_invalid_range in Heq'
        | discriminate Heq' ].

Section ToolOutcomes.
Context {L : DocLib}.
Implicit Types (st : Storage) (wb : Workbook).
Implicit Types (filepath sheet_name start_cell end_cell formula : string).

(* the call once the references have passed validation *)
Lemma apply_spill_formula_validated st filepath full_path wb sheet_name sheet
    start_cell end_cell formula a b :
  loads st filepath full_path wb ->
  has_sheet wb sheet_name sheet ->
  resolves start_cell end_cell a b ->
  a.1 <= b.1 -> a.2 <= b.2 ->
  apply_spill_formula filepath sheet_name start_cell end_cell formula st =
  try_except any_exception
    (item <~ call (ws_getitem wb sheet start_cell) ;;
     let '(cell, wb) := item in
     wb <~ call (set_value wb cell formula) ;;
     let range_str := start_cell +:+ ":" +:+ end_cell in
     wb <~ try_except (is_a AttributeError)
             (call (set_dynamic_array_formula wb cell range_str))
             (fun _ => return_ spill_unavailable) ;;
     _ <~ writing (save wb full_path) ;;
     return_ (applied formula range_str))
    (fun e => return_ (error_applying e)) st.
Proof.
  intros Hloads Hsheet Hres Hrow Hcol.
  rewrite (apply_spill_formula_opened _ _ _ _ _ _ _ _ _ Hloads Hsheet).
  unfold try_except at 1 3. unfold bind at 1.
  by rewrite (validate_ordered _ _ _ _ _ Hres Hrow Hcol).
Qed.

(** X1: for references the library accepts, the invalid-range error is
    returned exactly when the start lies after the end on either axis,
    also when it precedes the end on the other one. *)
Theorem invalid_range_iff st filepath full_path wb sheet_name sheet
    start_cell end_cell formula a b :
  loads st filepath full_path wb ->
  has_sheet wb sheet_name sheet ->
  resolves start_cell end_cell a b ->
  (apply_spill_formula filepath sheet_name start_cell end_cell formula st).1 =
    Return invalid_range <->
  a.1 > b.1 \/ a.2 > b.2.
Proof.
  intros Hloads Hsheet Hres. split.
  - intros Hresult.
    destruct (decide (a.1 > b.1 \/ a.2 > b.2)) as [|Hordered]; [done|].
    exfalso. revert Hresult.
    rewrite (apply_spill_formula_validated _ _ _ _ _ _ _ _ _ a b Hloads Hsheet Hres)
      by lia.
    unfold bind, call, try_except, writing, return_, any_exception.
    destruct (ws_getitem wb sheet start_cell) as [[cell wb1]|e]; [|told_apart].
    destruct (set_value wb1 cell formula) as [wb2|e]; [|told_apart].
    destruct (set_dynamic_array_formula wb2 cell _) as [wb3|[[] ?]]; [|told_apart..].
    destruct (save wb3 _ st) as [st'|e]; told_apart.
  - intros Hgt.
    rewrite (apply_spill_formula_opened _ _ _ _ _ _ _ _ _ Hloads Hsheet).
    unfold try_except at 1. unfold bind at 1.
    by rewrite (validate_reversed _ _ _ _ _ Hres Hgt).
Qed.

(** X2: when the directory cannot be made or the workbook cannot be
    loaded, the call returns "Error applying spill formula: " followed by
    the text of the exception, and the storage is unchanged. *)
Theorem unopened_workbook_reported st filepath sheet_name start_cell end_cell
    formula e :
  get_excel_path filepath st = (Raise e, st) \/
  (exists full_path,
     get_excel_path filepath st = (Next full_path, st) /\
     load_workbook st full_path = Err e) ->
  apply_spill_formula filepath sheet_name start_cell end_cell formula st =
    (Return (error_applying e), st).
Proof.
  intros [Hpath | (full_path & Hpath & Hload)]; unfold apply_spill_formula.
  - unfold try_except at 1. unfold bind at 1. by rewrite Hpath.
  - unfold try_except at 1. unfold bind at 1. rewrite Hpath.
    unfold bind at 1, reading, call at 1. by rewrite Hload.
Qed.

(** X3: an exception of [coordinate_to_tuple], for the start reference
    or, once the start is accepted, for the end reference, is reported as
    "Error: Invalid cell reference" only if it is a [ValueError]; any
    other exception is reported with its own text. *)
Theorem reference_exception_reported st filepath full_path wb sheet_name sheet
    start_cell end_cell formula e :
  loads st filepath full_path wb ->
  has_sheet wb sheet_name sheet ->
  coordinate_to_tuple start_cell = Err e \/
  (exists a, coordinate_to_tuple start_cell = Ok a /\
             coordinate_to_tuple end_cell = Err e) ->
  apply_spill_formula filepath sheet_name start_cell end_cell formula st =
    (Return (if is_a ValueError e then invalid_reference else error_applying e),
     st).
Proof.
  intros Hloads Hsheet Hraise.
  rewrite (apply_spill_formula_opened _ _ _ _ _ _ _ _ _ Hloads Hsheet).
  unfold validate_cell_references, try_except, bind, call, return_, any_exception.
  destruct Hraise as [Hstart | ([ar ac] & Hstart & Hend)]; rewrite Hstart; simpl.
  - by destruct (is_a ValueError e).
  - rewrite Hend. by destruct (is_a ValueError e).
Qed.

(** X4: the handler of [ValueError] covers [coordinate_to_tuple] only.
    An exception raised by [sheet[start_cell]] or by the assignment of
    the formula, whatever its class, is reported as
    "Error applying spill formula: ...", and the storage is unchanged. *)
Theorem cell_exception_reported st filepath full_path wb sheet_name sheet
    start_cell end_cell formula a b e :
  loads st filepath full_path wb ->
  has_sheet wb sheet_name sheet ->
  resolves start_cell end_cell a b ->
  a.1 <= b.1 -> a.2 <= b.2 ->
  ws_getitem wb sheet start_cell = Err e \/
  (exists cell wb1,
     ws_getitem wb sheet start_cell = Ok (cell, wb1) /\
     set_value wb1 cell formula = Err e) ->
  apply_spill_formula filepath sheet_name start_cell end_cell formula st =
    (Return (error_applying e), st).
Proof.
  intros Hloads Hsheet Hres Hrow Hcol Hraise.
  rewrite (apply_spill_formula_validated _ _ _ _ _ _ _ _ _ a b Hloads Hsheet Hres)
    by done.
  unfold bind, call, try_except, writing, return_, any_exception.
  destruct Hraise as [Hcell | (cell & wb1 & Hcell & Hvalue)]; rewrite Hcell.
  - reflexivity.
  - by rewrite Hvalue.
Qed.

(** X5: when [set_dynamic_array_formula] raises, the formula already
    assigned in memory is not saved: the storage is unchanged, and the
    call returns the message about the missing openpyxl-spill library for
    an [AttributeError] and "Error applying spill formula: ..." for any
    other exception. *)
Theorem spill_exception_reported st filepath full_path wb sheet_name sheet
    start_cell end_cell formula a b cell wb1 wb2 e :
  loads st filepath full_path wb ->
  has_sheet wb sheet_name sheet ->
  resolves start_cell end_cell a b ->
  a.1 <= b.1 -> a.2 <= b.2 ->
  ws_getitem wb sheet start_cell = Ok (cell, wb1) ->
  set_value wb1 cell formula = Ok wb2 ->
  set_dynamic_array_formula wb2 cell (start_cell +:+ ":" +:+ end_cell) = Err e ->
  apply_spill_formula filepath sheet_name start_cell end_cell formula st =
    (Return (if is_a AttributeError e then spill_unavailable else error_applying e),
     st).
Proof.
  intros Hloads Hsheet Hres Hrow Hcol Hcell Hvalue Hspill.
  rewrite (apply_spill_formula_validated _ _ _ _ _ _ _ _ _ a b Hloads Hsheet Hres)
    by done.
  unfold bind, call, try_except, writing, return_, any_exception.
  rewrite Hcell, Hvalue, Hspill. by destruct (is_a AttributeError e).
Qed.

(* closes a goal on a message the call has returned *)
Ltac listed := simpl; eexists; split; [reflexivity|]; eauto 10.

(** X6: the call returns one of six messages and nothing else: the
    missing sheet, the invalid range, the invalid reference, the missing
    spill library, the text of an exception, or the confirmation. *)
Theorem apply_spill_formula_messages st filepath sheet_name start_cell end_cell
    formula :
  exists message,
    (apply_spill_formula filepath sheet_name start_cell end_cell formula st).1 =
      Return message /\
    (message = sheet_not_found sheet_name \/
     message = invalid_range \/
     message = invalid_reference \/
     message = spill_unavailable \/
     (exists e, message = error_applying e) \/
     message = applied formula (start_cell +:+ ":" +:+ end_cell)).
Proof.
  unfold apply_spill_formula, validate_cell_references, get_excel_path.
  unfold try_except, bind, reading, writing, call, return_, ret, any_exception.
  destruct (makedirs _) as [[]|e]; [|listed].
  destruct (load_workbook st _) as [wb|e]; [|listed].
  case_bool_decide; [listed|].
  destruct (wb_getitem wb sheet_name) as [sheet|e]; [|listed].
  destruct (coordinate_to_tuple start_cell) as [[start_row start_col]|[[] ?]];
    [|listed..].
  destruct (coordinate_to_tuple end_cell) as [[end_row end_col]|[[] ?]];
    [|listed..].
  destruct ((start_row >? end_row) || (start_col >? end_col)); [listed|].
  destruct (ws_getitem wb sheet start_cell) as [[cell wb1]|e]; [|listed].
  destruct (set_value wb1 cell formula) as [wb2|e]; [|listed].
  destruct (set_dynamic_array_formula wb2 cell _) as [wb3|[[] ?]]; [|listed..].
  destruct (save wb3 _ st) as [st'|e]; listed.
Qed.

End ToolOutcomes.

(** C19 to B25 runs backwards on the columns only: it is refused. *)
Lemma backwards_columns_refused :
  (apply_spill_formula (L := document_library true)
     "test_spill.xlsx" "Sheet" "C19" "B25" "=SEQUENCE(7)" test_storage).1 =
    Return invalid_range.
Proof.
  apply (invalid_range_iff (L := document_library true)
           test_storage "test_spill.xlsx" "/tmp/excel_files/test_spill.xlsx"
           new_workbook "Sheet" "Sheet" "C19" "B25" "=SEQUENCE(7)" (19, 3) (25, 2)).
  - split; reflexivity.
  - split; [constructor | reflexivity].
  - split; reflexivity.
  - right. simpl. lia.
Defined.

(** A file that was never created. *)
Lemma missing_file_reported :
  apply_spill_formula (L := document_library true)
    "missing.xlsx" "Sheet" "A1" "A5" "=UNIQUE(A1:A10)" test_storage =
    (Return "Error applying spill formula: No such file or directory: /tmp/excel_files/missing.xlsx",
     test_storage).
Proof.
  apply (unopened_workbook_reported (L := document_library true)
           test_storage "missing.xlsx" "Sheet" "A1" "A5" "=UNIQUE(A1:A10)"
           (Exn OtherException
              "No such file or directory: /tmp/excel_files/missing.xlsx")).
  right. exists "/tmp/excel_files/missing.xlsx". split; reflexivity.
Defined.

(** A malformed end reference after a well-formed start. *)
Lemma malformed_end_reported :
  apply_spill_formula (L := document_library true)
    "test_spill.xlsx" "Sheet" "A1" "5A" "=UNIQUE(A1:A10)" test_storage =
    (Return "Error: Invalid cell reference", test_storage).
Proof.
  apply (reference_exception_reported (L := document_library true)
           test_storage "test_spill.xlsx" "/tmp/excel_files/test_spill.xlsx"
           new_workbook "Sheet" "Sheet" "A1" "5A" "=UNIQUE(A1:A10)"
           (Exn ValueError "Invalid cell reference: 5A")).
  - split; reflexivity.
  - split; [constructor | reflexivity].
  - right. exists (1, 1). split; reflexivity.
Defined.

(** Cells that are read only: the exception of the assignment is an
    [AttributeError], and still it is reported with its own text. *)
Lemma read_only_cell_reported :
  apply_spill_formula (L := read_only_library)
    "test_spill.xlsx" "Sheet" "A1" "A5" "=UNIQUE(A1:A10)" test_storage =
    (Return "Error applying spill formula: Cell is read only", test_storage).
Proof.
  apply (cell_exception_reported (L := read_only_library)
           test_storage "test_spill.xlsx" "/tmp/excel_files/test_spill.xlsx"
           new_workbook "Sheet" "Sheet" "A1" "A5" "=UNIQUE(A1:A10)" (1, 1) (5, 1)
           (Exn AttributeError "Cell is read only")).
  - split; reflexivity.
  - split; [constructor | reflexivity].
  - split; reflexivity.
  - simpl; lia.
  - simpl; lia.
  - right. exists ("Sheet", (1, 1)), new_workbook. split; reflexivity.
Defined.

(** Without the spill extension nothing is saved. *)
Lemma spill_unavailable_nothing_saved :
  apply_spill_formula (L := document_library false)
    "test_spill.xlsx" "Sheet" "A1" "A5" "=UNIQUE(A1:A10)" test_storage =
    (Return spill_unavailable, test_storage).
Proof.
  apply (spill_exception_reported (L := document_library false)
           test_storage "test_spill.xlsx" "/tmp/excel_files/test_spill.xlsx"
           new_workbook "Sheet" "Sheet" "A1" "A5" "=UNIQUE(A1:A10)" (1, 1) (5, 1)
           ("Sheet", (1, 1)) new_workbook
           [("Sheet", {[ (1, 1) := Value "=UNIQUE(A1:A10)" ]})]
           (Exn AttributeError
              "'Cell' object has no attribute 'set_dynamic_array_formula'")).
  - split; reflexivity.
  - split; [constructor | reflexivity].
  - split; reflexivity.
  - simpl; lia.
  - simpl; lia.
  - reflexivity.
  - reflexivity.
  - reflexivity.
Defined.

(** * Creating workbooks and writing data *)

Lemma for_each_app {A S} (l1 l2 : list A) (f : A -> S -> result S) (s : S) :
  for_each (l1 ++ l2) f s =
  match for_each l1 f s with
  | Ok s' => for_each l2 f s'
  | Err e => Err e
  end.
Proof.
  revert s. induction l1 as [|x l1 IH]; intros s; [reflexivity|].
  simpl. destruct (f x s); [apply IH | reflexivity].
Qed.

(* a loop inside a loop is one loop over the pairs *)
Lemma for_each_bind {A B S} (l : list A) (g : A -> list B)
    (f : B -> S -> result S) (s : S) :
  for_each (l ≫= g) f s = for_each l (fun x s => for_each (g x) f s) s.
Proof.
  revert s. induction l as [|x l IH]; intros s; [reflexivity|].
  change ((x :: l) ≫= g) with (g x ++ (l ≫= g)).
  rewrite for_each_app. simpl. destruct (for_each (g x) f s); [apply IH | reflexivity].
Qed.

Lemma for_each_fmap {A B S} (l : list A) (g : A -> B)
    (f : B -> S -> result S) (s : S) :
  for_each (g <$> l) f s = for_each l (fun x s => f (g x) s) s.
Proof.
  revert s. induction l as [|x l IH]; intros s; [reflexivity|].
  simpl. destruct (f (g x) s); [apply IH | reflexivity].
Qed.

Lemma for_each_ext {A S} (l : list A) (f g : A -> S -> result S) (s : S) :
  (forall x s, f x s = g x s) -> for_each l f s = for_each l g s.
Proof.
  intros Hfg. revert s. induction l as [|x l IH]; intros s; [reflexivity|].
  simpl. rewrite Hfg. destruct (g x s); [apply IH | reflexivity].
Qed.

(* a property every step keeps holds after the loop *)
Lemma for_each_invariant {A S} (P : S -> Prop) (l : list A)
    (f : A -> S -> result S) (s s' : S) :
  (forall x s s', f x s = Ok s' -> P s -> P s') ->
  for_each l f s = Ok s' -> P s -> P s'.
Proof.
  intros Hstep. revert s. induction l as [|x l IH]; intros s; simpl.
  - by intros [= <-].
  - destruct (f x s) as [s1|e] eqn:Hf; [|discriminate].
    intros Hrest Hs. eapply IH; [exact Hrest|]. by eapply Hstep.
Qed.

Lemma elem_of_enumerate_from {A} (start : Z) (l : list A) (i : Z) (x : A) :
  (i, x) ∈ enumerate_from start l <->
  exists n : nat, l !! n = Some x /\ i = start + Z.of_nat n.
Proof.
  revert start. induction l as [|y l IH]; intros start; simpl.
  - split; [by intros ?%not_elem_of_nil | by intros (n & ? & _)].
  - rewrite elem_of_cons, IH. split.
    + intros [[= -> ->] | (n & Hn & ->)].
      * exists 0%nat. split; [reflexivity | lia].
      * exists (S n). split; [exact Hn | lia].
    + intros ([|n] & Hn & ->).
      * left. simplify_eq/=. f_equal. lia.
      * right. exists n. split; [exact Hn | lia].
Qed.

Lemma NoDup_enumerate_from_fst {A} (start : Z) (l : list A) :
  NoDup (enumerate_from start l).*1 /\
  forall i, i ∈ (enumerate_from start l).*1 -> start <= i.
Proof.
  revert start. induction l as [|y l IH]; intros start; simpl.
  - split; [constructor | by intros i ?%not_elem_of_nil].
  - destruct (IH (start + 1)) as [Hnodup Hge]. split.
    + constructor; [|exact Hnodup]. intros Hin. apply Hge in Hin. lia.
    + intros i [->|Hin]%elem_of_cons; [lia|]. apply Hge in Hin. lia.
Qed.

(* closes a goal on a call that has returned the text of an exception *)
Ltac failed_write :=
  simpl; eexists _, _; split; [reflexivity|]; right; eauto.

(* closes a goal on a call that has not answered "Data written successfully" *)
Ltac not_written :=
  simpl; let H := fresh in let H' := fresh in
  intros H; exfalso;
  match type of H with
  | Return (error_writing ?e) = _ =>
      assert (error_writing e = written) as H' by congruence;
      apply (f_equal (String.get 0)) in H'; vm_compute in H'; discriminate
  end.

(* closes a goal that tells a returned message from the missing sheet *)
Ltac other_message :=
  simpl; let H := fresh in let H' := fresh in
  intros H; inversion H as [H'];
  first [ discriminate H'
        | apply (f_equal (String.get 5)) in H'; vm_compute in H'; discriminate
        | apply (f_equal (String.get 0)) in H'; vm_compute in H'; discriminate
        | apply (f_equal (String.get 7)) in H'; vm_compute in H'; discriminate ].

Section WriterProperties.
Context {W : SheetLib}.
Implicit Types (st : Storage) (wb : Workbook) (data : list (list CellValue)).

(** X7: [create_workbook] returns a string and lets no exception escape:
    either "Workbook created successfully at <path>" with the new
    workbook saved at the path of [get_excel_path], or
    "Error creating workbook: ..." with the storage unchanged. *)
Theorem create_workbook_outcome st (filename : string) :
  exists message st',
    create_workbook filename st = (Return message, st') /\
    ((exists full_path,
        get_excel_path filename st = (Next full_path, st) /\
        message = created full_path /\
        save Workbook_new full_path st = Ok st') \/
     (exists e, message = error_creating e /\ st' = st)).
Proof.
  unfold create_workbook, get_excel_path.
  unfold try_except, bind, writing, call, return_, ret, any_exception.
  destruct (makedirs _) as [[]|e]; simpl.
  - destruct (save _ _ st) as [st'|e] eqn:Hsave.
    + eexists _, _. split; [reflexivity|]. left. eauto.
    + eexists _, _. split; [reflexivity|]. right. eauto.
  - eexists _, _. split; [reflexivity|]. right. eauto.
Qed.

(** X8: [write_data_to_excel] returns a string and lets no exception
    escape: either "Data written successfully" with the storage [save]
    produced, or "Error writing data: ..." with the storage unchanged. *)
Theorem write_data_outcome st (filepath sheet_name start_cell : string) data :
  exists message st',
    write_data_to_excel filepath sheet_name start_cell data st =
      (Return message, st') /\
    ((message = written /\ exists wb full_path, save wb full_path st = Ok st') \/
     (exists e, message = error_writing e /\ st' = st)).
Proof.
  unfold write_data_to_excel, get_excel_path.
  unfold try_except, bind, reading, writing, call, return_, ret, any_exception.
  destruct (makedirs _) as [[]|e]; [|failed_write].
  destruct (load_workbook st _) as [wb|e]; [|failed_write].
  case_bool_decide;
    [destruct (create_sheet wb sheet_name) as [wb1|e]; [|failed_write] | ];
    simpl;
    (destruct (wb_getitem _ sheet_name) as [sheet|e]; [|failed_write]);
    (destruct (coordinate_to_tuple start_cell) as [[start_row start_col]|e];
       [|failed_write]);
    (destruct (write_rows _ _ _ data _) as [wb2|e]; [|failed_write]);
    (destruct (save _ _ st) as [st'|e] eqn:Hsave; [|failed_write]);
    eexists _, _; (split; [reflexivity|]); left; eauto.
Qed.

Lemma write_rows_cell_writes (sheet : Worksheet) (start_row start_col : Z) data wb :
  write_rows sheet start_row start_col data wb =
  for_each (cell_writes start_row start_col data)
    (fun w wb => ws_cell wb sheet w.1.1 w.1.2 w.2) wb.
Proof.
  unfold write_rows, cell_writes. rewrite for_each_bind.
  apply for_each_ext. intros [row_idx row_data] wb1.
  unfold row_writes. rewrite for_each_bind.
  apply for_each_ext. intros [col_idx value] wb2.
  simpl. by destruct (ws_cell _ _ _ _ _).
Qed.

(* the call once the sheet is there and the start cell is accepted *)
Lemma write_data_opened st (filepath full_path sheet_name start_cell : string)
    wb wb1 (sheet : Worksheet) (a : Z * Z) data :
  loads st filepath full_path wb ->
  opens_sheet wb sheet_name wb1 sheet ->
  coordinate_to_tuple start_cell = Ok a ->
  write_data_to_excel filepath sheet_name start_cell data st =
  match write_rows sheet a.1 a.2 data wb1 with
  | Ok wb2 =>
      match save wb2 full_path st with
      | Ok st' => (Return written, st')
      | Err e => (Return (error_writing e), st)
      end
  | Err e => (Return (error_writing e), st)
  end.
Proof.
  intros [Hpath Hload] [Hopen Hsheet] Hstart. destruct a as [start_row start_col].
  unfold write_data_to_excel.
  unfold try_except, bind at 1. rewrite Hpath.
  unfold bind at 1, reading, call at 1. rewrite Hload.
  unfold bind, call, ret, writing, return_, any_exception.
  destruct Hopen as [[Hin ->] | [Hnot Hcreate]].
  - rewrite bool_decide_eq_false_2 by (intros Hnot; exact (Hnot Hin)).
    rewrite Hsheet, Hstart. simpl.
    destruct (write_rows _ _ _ _ _); [|reflexivity]. by destruct (save _ _ _).
  - rewrite bool_decide_eq_true_2 by done.
    rewrite Hcreate, Hsheet, Hstart. simpl.
    destruct (write_rows _ _ _ _ _); [|reflexivity]. by destruct (save _ _ _).
Qed.

(** X9: once the workbook is loaded, the sheet is there (or has been
    created) and the start cell is accepted, [write_data_to_excel] assigns
    the cells of [cell_writes] one by one in their order and stops at the
    first exception; it saves and answers "Data written successfully"
    when none is raised, and answers "Error writing data: ..." with the
    storage unchanged otherwise. *)
Theorem write_data_writes st (filepath full_path sheet_name start_cell : string)
    wb wb1 (sheet : Worksheet) (a : Z * Z) data :
  loads st filepath full_path wb ->
  opens_sheet wb sheet_name wb1 sheet ->
  coordinate_to_tuple start_cell = Ok a ->
  write_data_to_excel filepath sheet_name start_cell data st =
  match for_each (cell_writes a.1 a.2 data)
          (fun w wb => ws_cell wb sheet w.1.1 w.1.2 w.2) wb1 with
  | Ok wb2 =>
      match save wb2 full_path st with
      | Ok st' => (Return written, st')
      | Err e => (Return (error_writing e), st)
      end
  | Err e => (Return (error_writing e), st)
  end.
Proof.
  intros Hloads Hopens Hstart.
  rewrite (write_data_opened _ _ _ _ _ _ _ _ _ _ Hloads Hopens Hstart).
  by rewrite write_rows_cell_writes.
Qed.

Lemma bind_singleton_fmap {A B} (g : A -> B) (l : list A) :
  l ≫= (fun x => [g x]) = g <$> l.
Proof. induction l as [|x l IH]; [reflexivity|]. csimpl. by rewrite IH. Qed.

Lemma elem_of_cell_writes (start_row start_col : Z) data
    (r c : Z) (v : CellValue) :
  (r, c, v) ∈ cell_writes start_row start_col data <->
  exists (i j : nat) (row_data : list CellValue),
    data !! i = Some row_data /\ row_data !! j = Some v /\
    r = start_row + Z.of_nat i /\ c = start_col + Z.of_nat j.
Proof.
  unfold cell_writes. rewrite list_elem_of_bind. split.
  - intros ([row_idx row_data] & Hin & Hrow). unfold row_writes in Hin.
    apply list_elem_of_bind in Hin as ([col_idx value] & Hin & Hcol).
    apply list_elem_of_singleton in Hin as [= -> -> ->].
    apply elem_of_enumerate_from in Hrow as (i & Hi & ->).
    apply elem_of_enumerate_from in Hcol as (j & Hj & ->).
    exists i, j, row_data. repeat split; first [done | lia].
  - intros (i & j & row_data & Hi & Hj & -> & ->).
    exists (Z.of_nat i, row_data). split.
    + unfold row_writes. apply list_elem_of_bind. exists (Z.of_nat j, v). split.
      * by apply list_elem_of_singleton.
      * apply elem_of_enumerate_from. exists j. split; [done | lia].
    + apply elem_of_enumerate_from. exists i. split; [done | lia].
Qed.

(** X10: the value at index [j] of the row at index [i] of the data is
    assigned to the cell in row [start_row + i] and column
    [start_col + j], and nothing else is assigned; rows may differ in
    length. *)
Theorem cell_writes_spec (start_row start_col : Z) data
    (r c : Z) (v : CellValue) :
  (r, c, v) ∈ cell_writes start_row start_col data <->
  exists (i j : nat) (row_data : list CellValue),
    data !! i = Some row_data /\ row_data !! j = Some v /\
    r = start_row + Z.of_nat i /\ c = start_col + Z.of_nat j.
Proof. apply elem_of_cell_writes. Qed.

Lemma row_writes_targets (r start_col : Z) (row_data : list CellValue) :
  (row_writes r start_col row_data).*1 =
  (fun col_idx : Z => (r, start_col + col_idx)) <$> (enumerate row_data).*1.
Proof.
  unfold row_writes. generalize (enumerate row_data). intros l.
  induction l as [|[col_idx value] l IH]; [reflexivity|]. csimpl. by rewrite IH.
Qed.

Lemma row_writes_NoDup (r start_col : Z) (row_data : list CellValue) :
  NoDup (row_writes r start_col row_data).*1.
Proof.
  rewrite row_writes_targets. apply NoDup_fmap_2.
  - intros x y [= Heq]. lia.
  - apply NoDup_enumerate_from_fst.
Qed.

Lemma row_writes_row (r start_col : Z) (row_data : list CellValue) (t : Z * Z) :
  t ∈ (row_writes r start_col row_data).*1 -> fst t = r.
Proof.
  rewrite row_writes_targets. by intros (col_idx & -> & _)%list_elem_of_fmap.
Qed.

(* the cells assigned for the rows from index [first] on *)
Lemma cell_writes_from_NoDup (start_row start_col first : Z) data :
  let targets :=
    (enumerate_from first data ≫=
       (fun '(row_idx, row_data) =>
          row_writes (start_row + row_idx) start_col row_data)).*1 in
  NoDup targets /\ forall t, t ∈ targets -> start_row + first <= fst t.
Proof.
  revert first. induction data as [|row_data data IH]; intros first targets.
  - split; [constructor | by intros t ?%not_elem_of_nil].
  - destruct (IH (first + 1)) as [Hnodup Hge].
    subst targets. cbn [enumerate_from]. rewrite bind_cons, fmap_app.
    split.
    + apply NoDup_app. split; [apply row_writes_NoDup|]. split; [|exact Hnodup].
      intros t Hin Hin'. apply row_writes_row in Hin. apply Hge in Hin'. lia.
    + intros t [Hin|Hin]%elem_of_app.
      * apply row_writes_row in Hin. lia.
      * apply Hge in Hin. lia.
Qed.

Lemma NoDup_cell_writes (start_row start_col : Z) data :
  NoDup (cell_writes start_row start_col data).*1.
Proof. apply (cell_writes_from_NoDup start_row start_col 0 data). Qed.

(** X11: a call assigns no cell twice: the cells of [cell_writes] are
    pairwise different, so no value of the data is overwritten by another
    one. *)
Theorem cell_writes_NoDup (start_row start_col : Z) data :
  NoDup (cell_writes start_row start_col data).*1.
Proof. apply NoDup_cell_writes. Qed.

(** X12: with nothing to write (no rows, or only empty rows) the start
    cell is still resolved, the sheet is still created when absent, and
    the workbook is saved as it then is. *)
Theorem write_data_empty st (filepath full_path sheet_name start_cell : string)
    wb wb1 (sheet : Worksheet) (a : Z * Z) data st' :
  loads st filepath full_path wb ->
  opens_sheet wb sheet_name wb1 sheet ->
  coordinate_to_tuple start_cell = Ok a ->
  Forall (fun row_data => row_data = []) data ->
  save wb1 full_path st = Ok st' ->
  write_data_to_excel filepath sheet_name start_cell data st = (Return written, st').
Proof.
  intros Hloads Hopens Hstart Hempty Hsave.
  rewrite (write_data_opened _ _ _ _ _ _ _ _ _ _ Hloads Hopens Hstart).
  assert (write_rows sheet a.1 a.2 data wb1 = Ok wb1) as ->; [|by rewrite Hsave].
  unfold write_rows. change (enumerate data) with (enumerate_from 0 data).
  generalize 0.
  induction Hempty as [|row_data data -> _ IH]; intros first; [reflexivity|].
  simpl. apply IH.
Qed.

(** X13: an exception raised while the sheet is created or fetched, or
    by [coordinate_to_tuple] for the start cell (a [ValueError] too), is
    answered with "Error writing data: " and its text; nothing is saved. *)
Theorem write_data_exception_reported st
    (filepath full_path sheet_name start_cell : string) wb data e :
  loads st filepath full_path wb ->
  ((sheet_name ∉ sheetnames wb) /\ create_sheet wb sheet_name = Err e) \/
  (exists wb1,
     ((sheet_name ∈ sheetnames wb /\ wb1 = wb) \/
      ((sheet_name ∉ sheetnames wb) /\ create_sheet wb sheet_name = Ok wb1)) /\
     (wb_getitem wb1 sheet_name = Err e \/
      exists sheet, wb_getitem wb1 sheet_name = Ok sheet /\
                    coordinate_to_tuple start_cell = Err e)) ->
  write_data_to_excel filepath sheet_name start_cell data st =
    (Return (error_writing e), st).
Proof.
  intros [Hpath Hload] Hraise. unfold write_data_to_excel.
  unfold try_except, bind at 1. rewrite Hpath.
  unfold bind at 1, reading, call at 1. rewrite Hload.
  unfold bind, call, ret, writing, return_, any_exception.
  destruct Hraise as [[Hnot Hcreate] | (wb1 & Hopen & Hrest)].
  - rewrite bool_decide_eq_true_2 by done. by rewrite Hcreate.
  - destruct Hopen as [[Hin ->] | [Hnot Hcreate]];
      [ rewrite bool_decide_eq_false_2 by (intros Hnot; exact (Hnot Hin))
      | rewrite bool_decide_eq_true_2 by done; rewrite Hcreate ];
      simpl;
      (destruct Hrest as [Hsheet | (sheet & Hsheet & Hstart)]; rewrite Hsheet;
         [reflexivity | by rewrite Hstart]).
Qed.

(** X14: when what is saved can be loaded again, the workbook a later
    call opens under the same file name is the new workbook that
    [create_workbook] saved. *)
Theorem created_workbook_loads st (filename full_path : string) :
  save_then_load ->
  (create_workbook filename st).1 = Return (created full_path) ->
  loads (create_workbook filename st).2 filename full_path Workbook_new.
Proof.
  intros Hlaw. unfold loads, create_workbook, get_excel_path.
  unfold try_except, bind, writing, call, return_, ret, any_exception.
  destruct (makedirs _) as [[]|e]; simpl.
  - destruct (save _ _ st) as [st'|e] eqn:Hsave; simpl.
    + intros [= Hpath]. apply (inj (String.app _)) in Hpath as <-.
      split; [reflexivity|]. by eapply Hlaw.
    + intros Hmessage. exfalso.
      assert (error_creating e = created full_path) as Heq by congruence.
      apply (f_equal (String.get 0)) in Heq. vm_compute in Heq. discriminate.
  - intros Hmessage. exfalso.
    assert (error_creating e = created full_path) as Heq by congruence.
    apply (f_equal (String.get 0)) in Heq. vm_compute in Heq. discriminate.
Qed.

(* a call that answers "Data written successfully" has gone through
   every step *)
Lemma write_data_written_inv st (filepath sheet_name start_cell : string) data :
  (write_data_to_excel filepath sheet_name start_cell data st).1 = Return written ->
  exists full_path wb wb1 sheet a wb2,
    loads st filepath full_path wb /\
    opens_sheet wb sheet_name wb1 sheet /\
    coordinate_to_tuple start_cell = Ok a /\
    write_rows sheet a.1 a.2 data wb1 = Ok wb2 /\
    save wb2 full_path st =
      Ok (write_data_to_excel filepath sheet_name start_cell data st).2.
Proof.
  unfold loads, opens_sheet, write_data_to_excel, get_excel_path.
  unfold try_except, bind, reading, writing, call, return_, ret, any_exception.
  destruct (makedirs _) as [[]|e]; [|not_written].
  destruct (load_workbook st _) as [wb|e] eqn:Hload; [|not_written].
  case_bool_decide as Hin;
    [destruct (create_sheet wb sheet_name) as [wb1|e] eqn:Hcreate; [|not_written] | ];
    simpl;
    (destruct (wb_getitem _ sheet_name) as [sheet|e] eqn:Hsheet; [|not_written]);
    (destruct (coordinate_to_tuple start_cell) as [[start_row start_col]|e];
       [|not_written]);
    (destruct (write_rows _ _ _ data _) as [wb2|e] eqn:Hrows; [|not_written]);
    (destruct (save _ _ st) as [st'|e] eqn:Hsave; [|not_written]);
    intros _; eexists _, wb, _, sheet, (start_row, start_col), wb2;
    (split; [by split|]); (split; [split; [|exact Hsheet]|]).
  - right. by split.
  - by split.
  - left. split; [exact Hin | reflexivity].
  - by split.
Qed.

(* what comes after the sheet check, for a sheet the workbook has *)
Lemma apply_spill_formula_present st (filepath full_path sheet_name : string)
    wb (start_cell end_cell formula : string) :
  loads st filepath full_path wb ->
  sheet_name ∈ sheetnames wb ->
  (apply_spill_formula filepath sheet_name start_cell end_cell formula st).1 <>
    Return (sheet_not_found sheet_name).
Proof.
  intros Hloads Hin.
  rewrite (apply_spill_formula_loaded _ _ _ _ _ _ _ _ Hloads).
  rewrite bool_decide_eq_false_2 by (intros Hnot; exact (Hnot Hin)).
  unfold validate_cell_references.
  unfold try_except, bind, reading, writing, call, return_, ret, any_exception.
  destruct (wb_getitem wb sheet_name) as [sheet|e]; [|other_message].
  destruct (coordinate_to_tuple start_cell) as [[start_row start_col]|[[] ?]];
    [|other_message..].
  destruct (coordinate_to_tuple end_cell) as [[end_row end_col]|[[] ?]];
    [|other_message..].
  destruct ((start_row >? end_row) || (start_col >? end_col)); [other_message|].
  destruct (ws_getitem wb sheet start_cell) as [[cell wb1]|e]; [|other_message].
  destruct (set_value wb1 cell formula) as [wb2|e]; [|other_message].
  destruct (set_dynamic_array_formula wb2 cell _) as [wb3|[[] ?]];
    [|other_message..].
  destruct (save wb3 _ st) as [st'|e]; other_message.
Qed.

(** X15: in a library where what is saved can be loaded again, a
    created sheet is among the sheets and assigning cells keeps the
    sheets, a call of [write_data_to_excel] that answers
    "Data written successfully" leaves a workbook that has the sheet:
    [apply_spill_formula] on that file and sheet does not answer that the
    sheet is missing. *)
Theorem written_sheet_is_found st (filepath sheet_name start_cell : string) data
    (first last formula : string) :
  save_then_load ->
  sheets_kept ->
  (write_data_to_excel filepath sheet_name start_cell data st).1 = Return written ->
  (exists full_path wb,
     loads (write_data_to_excel filepath sheet_name start_cell data st).2
       filepath full_path wb /\
     sheet_name ∈ sheetnames wb) /\
  (apply_spill_formula filepath sheet_name first last formula
     (write_data_to_excel filepath sheet_name start_cell data st).2).1 <>
    Return (sheet_not_found sheet_name).
Proof.
  intros Hlaw [Hcreated Hkept] Hwritten.
  destruct (write_data_written_inv _ _ _ _ _ Hwritten)
    as (full_path & wb & wb1 & sheet & a & wb2 & Hloads & Hopens & _ & Hrows & Hsave).
  assert (sheet_name ∈ sheetnames wb2) as Hin.
  { rewrite write_rows_cell_writes in Hrows.
    eapply (for_each_invariant (fun wb => sheet_name ∈ sheetnames wb)); [|exact Hrows|].
    - intros w wb3 wb4 Hcell Hin. by rewrite (Hkept _ _ _ _ _ _ Hcell).
    - destruct Hopens as [[[Hin ->] | [_ Hcreate]] _]; [done|].
      by eapply Hcreated. }
  assert (loads (write_data_to_excel filepath sheet_name start_cell data st).2
            filepath full_path wb2) as Hloads'.
  { destruct Hloads as [Hpath _]. split; [|by eapply Hlaw].
    revert Hpath. unfold get_excel_path, bind, call, ret.
    destruct (makedirs _); [|discriminate]. by intros [= <-]. }
  split; [by exists full_path, wb2|].
  by eapply apply_spill_formula_present.
Qed.

End WriterProperties.

(** * Creating and writing on the document library *)

Lemma update_sheet_names (name : string)
    (f : gmap Coordinate CellContent -> gmap Coordinate CellContent) (wb : Sheets) :
  (update_sheet name f wb).*1 = wb.*1.
Proof.
  induction wb as [|[n cells] wb IH]; [reflexivity|].
  cbn [update_sheet]. destruct (decide (n = name)); rewrite !fmap_cons;
    [reflexivity | by rewrite IH].
Qed.

Lemma document_library_save_then_load (spill_support : bool) :
  save_then_load (W := document_sheet_library spill_support).
Proof.
  intros wb path st st'. simpl. intros [= <-]. by rewrite lookup_insert_eq.
Qed.

Lemma document_library_sheets_kept (spill_support : bool) :
  sheets_kept (W := document_sheet_library spill_support).
Proof.
  split; simpl.
  - intros wb name wb' [= <-]. rewrite fmap_app. apply elem_of_app. right.
    by left.
  - intros wb sheet r c v wb' [= <-]. apply update_sheet_names.
Qed.

(** The scores of the test fixture, written from B1. *)
Lemma scores_written :
  (write_data_to_excel (W := document_sheet_library true)
     "test_spill.xlsx" "Sheet" "B1"
     [["Name"; "Score"]; ["Alice"; "85"]; ["Bob"; "92"]] test_storage).1 =
    Return "Data written successfully".
Proof.
  rewrite (write_data_writes (W := document_sheet_library true)
             test_storage "test_spill.xlsx" "/tmp/excel_files/test_spill.xlsx"
             "Sheet" "B1" new_workbook new_workbook "Sheet" (1, 2)).
  - reflexivity.
  - split; reflexivity.
  - split; [left; split; [constructor | reflexivity] | reflexivity].
  - reflexivity.
Defined.

(** Two empty rows for a sheet the workbook does not have yet. *)
Lemma empty_rows_written :
  exists st',
    write_data_to_excel (W := document_sheet_library true)
      "test_spill.xlsx" "Data" "A1" [[]; []] test_storage =
      (Return "Data written successfully", st').
Proof.
  eexists.
  eapply (write_data_empty (W := document_sheet_library true)
            test_storage "test_spill.xlsx" "/tmp/excel_files/test_spill.xlsx"
            "Data" "A1" new_workbook _ "Data" (1, 1)).
  - split; reflexivity.
  - split; [right; split; [|reflexivity] | reflexivity].
    apply not_elem_of_cons. split; [discriminate | apply not_elem_of_nil].
  - reflexivity.
  - repeat constructor.
  - reflexivity.
Defined.

(** A start cell that is no reference. *)
Lemma write_data_malformed_start :
  write_data_to_excel (W := document_sheet_library true)
    "test_spill.xlsx" "Sheet" "INVALID" [["Apple"]] test_storage =
    (Return "Error writing data: Invalid cell reference: INVALID", test_storage).
Proof.
  apply (write_data_exception_reported (W := document_sheet_library true)
           test_storage "test_spill.xlsx" "/tmp/excel_files/test_spill.xlsx"
           "Sheet" "INVALID" new_workbook [["Apple"]]
           (Exn ValueError "Invalid cell reference: INVALID")).
  - split; reflexivity.
  - right. exists new_workbook. split.
    + left. split; [constructor | reflexivity].
    + right. exists "Sheet". split; reflexivity.
Defined.

(** A workbook created and opened again. *)
Lemma new_workbook_loads :
  loads (L := document_library true)
    (create_workbook (W := document_sheet_library true) "new.xlsx" test_storage).2
    "new.xlsx" "/tmp/excel_files/new.xlsx" new_workbook.
Proof.
  apply (created_workbook_loads (W := document_sheet_library true)
           test_storage "new.xlsx" "/tmp/excel_files/new.xlsx").
  - apply document_library_save_then_load.
  - reflexivity.
Defined.

(** Data written to a new sheet "Data", then a formula applied there. *)
Lemma written_data_sheet_found :
  (exists full_path wb,
     loads (L := document_library true)
       (write_data_to_excel (W := document_sheet_library true)
          "test_spill.xlsx" "Data" "A1" [["Apple"]; ["Banana"]] test_storage).2
       "test_spill.xlsx" full_path wb /\
     "Data" ∈ sheetnames (DocLib := document_library true) wb) /\
  (apply_spill_formula (L := document_library true)
     "test_spill.xlsx" "Data" "D1" "D10" "=UNIQUE(A1:A10)"
     (write_data_to_excel (W := document_sheet_library true)
        "test_spill.xlsx" "Data" "A1" [["Apple"]; ["Banana"]] test_storage).2).1 <>
    Return (sheet_not_found "Data").
Proof.
  apply (written_sheet_is_found (W := document_sheet_library true)
           test_storage "test_spill.xlsx" "Data" "A1" [["Apple"]; ["Banana"]]
           "D1" "D10" "=UNIQUE(A1:A10)").
  - apply document_library_save_then_load.
  - apply document_library_sheets_kept.
  - reflexivity.
Defined.

Lemma sheet_cells_update (name : string)
    (f : gmap Coordinate CellContent -> gmap Coordinate CellContent) (wb : Sheets) :
  name ∈ wb.*1 ->
  sheet_cells name (update_sheet name f wb) = f (sheet_cells name wb).
Proof.
  induction wb as [|[n cells] wb IH]; [by intros ?%not_elem_of_nil|].
  rewrite fmap_cons. intros Hin. cbn [update_sheet sheet_cells].
  destruct (decide (n = name)) as [->|Hne]; cbn [sheet_cells].
  - by rewrite decide_True.
  - rewrite decide_False by done. apply IH.
    apply elem_of_cons in Hin as [Heq|Hin]; [|done]. by destruct Hne.
Qed.

Lemma sheet_cells_absent (name : string) (wb : Sheets) :
  name ∉ wb.*1 -> sheet_cells name wb = ∅.
Proof.
  induction wb as [|[n cells] wb IH]; [reflexivity|].
  rewrite fmap_cons. intros [Hne Hnot]%not_elem_of_cons. cbn [sheet_cells].
  rewrite decide_False by (by intros ->). by apply IH.
Qed.

Lemma sheet_cells_created (name : string) (wb : Sheets) :
  name ∉ wb.*1 -> sheet_cells name (wb ++ [(name, ∅)]) = sheet_cells name wb.
Proof.
  intros Hnot. rewrite (sheet_cells_absent _ _ Hnot).
  induction wb as [|[n cells] wb IH].
  - simpl. by rewrite decide_True.
  - rewrite fmap_cons in Hnot. apply not_elem_of_cons in Hnot as [Hne Hnot].
    cbn [app sheet_cells]. rewrite decide_False by (by intros ->). by apply IH.
Qed.

(* the cells of a sheet after the values of a list have been assigned *)
Lemma assign_cells (name : string) (l : list (Z * Z * string)) (wb wb2 : Sheets) :
  name ∈ wb.*1 ->
  NoDup l.*1 ->
  for_each l
    (fun w (wb : Sheets) =>
       Ok (update_sheet name
             (fun cells => <[(w.1.1, w.1.2) := Value w.2]> cells) wb)) wb = Ok wb2 ->
  (forall r c v, (r, c, v) ∈ l -> sheet_cells name wb2 !! (r, c) = Some (Value v)) /\
  (forall k, k ∉ l.*1 -> sheet_cells name wb2 !! k = sheet_cells name wb !! k).
Proof.
  revert wb. induction l as [|[[r0 c0] v0] l IH]; intros wb Hname Hnodup Hloop.
  - simpl in Hloop. injection Hloop as <-.
    split; [by intros r c v ?%not_elem_of_nil | done].
  - rewrite fmap_cons in Hnodup. apply NoDup_cons in Hnodup as [Hfresh Hnodup].
    cbn [for_each fst snd] in Hloop, Hfresh.
    assert (name ∈ (update_sheet name
                      (fun cells => <[(r0, c0) := Value v0]> cells) wb).*1)
      as Hname' by (by rewrite update_sheet_names).
    destruct (IH _ Hname' Hnodup Hloop) as [Hset Hframe].
    assert (sheet_cells name wb2 !! (r0, c0) = Some (Value v0)) as Hfirst.
    { rewrite (Hframe _ Hfresh), sheet_cells_update by done.
      by rewrite lookup_insert_eq. }
    split.
    + intros r c v [[= -> -> ->]|Hin]%elem_of_cons; [exact Hfirst | by apply Hset].
    + intros k Hk. rewrite fmap_cons in Hk.
      apply not_elem_of_cons in Hk as [Hne Hk]. cbn [fst] in Hne.
      rewrite (Hframe _ Hk), sheet_cells_update by done.
      by rewrite lookup_insert_ne.
Qed.

(** X16: on the document library, after a call of
    [write_data_to_excel] that answers "Data written successfully", the
    saved sheet holds the value at index [j] of row [i] of the data in the
    cell [j] columns right of and [i] rows below the start cell, and every
    other cell of the sheet is as it was before the call. *)
Theorem written_cells_stored (spill_support : bool) (st : gmap string Sheets)
    (filepath sheet_name start_cell : string) (data : list (list string)) :
  (write_data_to_excel (W := document_sheet_library spill_support)
     filepath sheet_name start_cell data st).1 = Return written ->
  exists start,
    parse start_cell = Success start /\
    (forall (i j : nat) row_data v,
       data !! i = Some row_data -> row_data !! j = Some v ->
       stored_cell
         (write_data_to_excel (W := document_sheet_library spill_support)
            filepath sheet_name start_cell data st).2
         ("/tmp/excel_files" +:+ "/" +:+ filepath) sheet_name
         (row start + Z.of_nat i, column start + Z.of_nat j) = Some (Value v)) /\
    (forall k,
       (forall (i j : nat) row_data v,
          data !! i = Some row_data -> row_data !! j = Some v ->
          k <> (row start + Z.of_nat i, column start + Z.of_nat j)) ->
       stored_cell
         (write_data_to_excel (W := document_sheet_library spill_support)
            filepath sheet_name start_cell data st).2
         ("/tmp/excel_files" +:+ "/" +:+ filepath) sheet_name k =
       stored_cell st ("/tmp/excel_files" +:+ "/" +:+ filepath) sheet_name k).
Proof.
  intros Hwritten.
  destruct (write_data_written_inv (W := document_sheet_library spill_support)
              _ _ _ _ _ Hwritten)
    as (full_path & wb & wb1 & sheet & [r c] & wb2
        & [Hpath Hload] & [Hopens Hsheet] & Hstart & Hrows & Hsave).
  simpl in *. injection Hpath as <-. injection Hsave as Hsave.
  rewrite <- Hsave. clear Hsave Hwritten.
  unfold resolve in Hstart.
  destruct (parse start_cell) as [start|] eqn:Hparse; [|discriminate].
  injection Hstart as ->. exists (r, c). split; [reflexivity|]. unfold row, column.
  cbn [fst snd].
  destruct (st !! ("/tmp/excel_files" +:+ "/" +:+ filepath)) as [wb0|] eqn:Hst;
    [|discriminate].
  injection Hload as ->.
  case_bool_decide as Hname; [|discriminate]. injection Hsheet as <-.
  rewrite (write_rows_cell_writes (W := document_sheet_library spill_support))
    in Hrows.
  destruct (assign_cells sheet_name
              (cell_writes (W := document_sheet_library spill_support) r c data)
              wb1 wb2 Hname
              (NoDup_cell_writes (W := document_sheet_library spill_support) r c data)
              Hrows) as [Hset Hframe].
  assert (sheet_cells sheet_name wb1 = sheet_cells sheet_name wb) as Hbefore.
  { destruct Hopens as [[_ ->] | [Hnot [= <-]]]; [reflexivity|].
    by apply sheet_cells_created. }
  unfold stored_cell. rewrite lookup_insert_eq, Hst. simpl. split.
  - intros i j row_data v Hi Hj. apply Hset.
    apply (elem_of_cell_writes (W := document_sheet_library spill_support)).
    by exists i, j, row_data.
  - intros k Hk. rewrite <- Hbefore. apply Hframe.
    intros ([[r' c'] v] & -> & Hin)%list_elem_of_fmap.
    apply (elem_of_cell_writes (W := document_sheet_library spill_support)) in Hin
      as (i & j & row_data & Hi & Hj & -> & ->).
    by eapply Hk.
Qed.

(** The fruit of the test fixture in column A: "Banana" is in A2. *)
Lemma banana_stored :
  exists start,
    parse "A1" = Success start /\
    stored_cell
      (write_data_to_excel (W := document_sheet_library true)
         "test_spill.xlsx" "Sheet" "A1" [["Apple"]; ["Banana"]; ["Apple"]]
         test_storage).2
      "/tmp/excel_files/test_spill.xlsx" "Sheet" (row start + 1, column start + 0) =
      Some (Value "Banana").
Proof.
  destruct (written_cells_stored true test_storage "test_spill.xlsx" "Sheet" "A1"
              [["Apple"]; ["Banana"]; ["Apple"]] eq_refl)
    as (start & Hparse & Hset & _).
  exists start. split; [exact Hparse|].
  apply (Hset 1%nat 0%nat ["Banana"] "Banana"); reflexivity.
Defined.

(** * The comparison of formulas *)

Lemma replace_space (s : string) : replace s " " EmptyString = without " " s.
Proof.
  unfold replace. induction s as [|d s IH]; [reflexivity|].
  cbn [replace_from String.prefix without].
  destruct (ascii_dec " " d) as [<-|Hne].
  - rewrite (bool_decide_eq_true_2 (" "%char = " "%char)) by done.
    rewrite (bool_decide_eq_false_2 (" " = EmptyString)) by done.
    destruct s; exact IH.
  - rewrite (bool_decide_eq_false_2 (d = " "%char)) by (by intros ->).
    by rewrite IH.
Qed.

Lemma upper_append (s1 s2 : string) : upper (s1 +:+ s2) = upper s1 +:+ upper s2.
Proof.
  induction s1 as [|c s1 IH]; [reflexivity|].
  change (String (to_upper c) (upper (s1 +:+ s2)) =
          String (to_upper c) (upper s1 +:+ upper s2)).
  by rewrite IH.
Qed.

Lemma without_append (c : ascii) (s1 s2 : string) :
  without c (s1 +:+ s2) = without c s1 +:+ without c s2.
Proof.
  induction s1 as [|d s1 IH]; [reflexivity|].
  change (String d s1 +:+ s2) with (String d (s1 +:+ s2)).
  cbn [without]. case_bool_decide; [exact IH|].
  change (String d (without c s1) +:+ without c s2)
    with (String d (without c s1 +:+ without c s2)).
  by rewrite IH.
Qed.

Lemma to_upper_idempotent (c : ascii) : to_upper (to_upper c) = to_upper c.
Proof. by destruct c as [[] [] [] [] [] [] [] []]. Qed.

Lemma to_upper_space (c : ascii) : to_upper c = " "%char <-> c = " "%char.
Proof. destruct c as [[] [] [] [] [] [] [] []]; by split. Qed.

Lemma to_upper_underscore (c : ascii) : to_upper c = "_"%char -> c = "_"%char.
Proof. by destruct c as [[] [] [] [] [] [] [] []]. Qed.

Lemma upper_idempotent (s : string) : upper (upper s) = upper s.
Proof.
  induction s as [|c s IH]; [reflexivity|].
  simpl. by rewrite to_upper_idempotent, IH.
Qed.

Lemma upper_without_space (s : string) :
  upper (without " " s) = without " " (upper s).
Proof.
  induction s as [|c s IH]; [reflexivity|]. cbn [without upper].
  destruct (decide (c = " "%char)) as [->|Hne].
  - rewrite !bool_decide_eq_true_2 by done. exact IH.
  - rewrite !bool_decide_eq_false_2; [|by rewrite to_upper_space|done].
    cbn [upper]. by rewrite IH.
Qed.

Lemma without_idempotent (c : ascii) (s : string) :
  without c (without c s) = without c s.
Proof.
  induction s as [|d s IH]; [reflexivity|]. cbn [without].
  case_bool_decide as Hd; [exact IH|]. cbn [without].
  rewrite bool_decide_eq_false_2 by done. by rewrite IH.
Qed.

(** X17: the comparison ignores letter case and spaces: a formula, its
    upper-case form and its form without spaces are normalized to the
    same text. *)
Theorem normalize_ignores_case_and_spaces (test_formula : string) :
  normalize_test_formula (upper test_formula) = normalize_test_formula test_formula /\
  normalize_test_formula (replace test_formula " " EmptyString) =
    normalize_test_formula test_formula.
Proof.
  unfold normalize_test_formula. split.
  - by rewrite upper_idempotent.
  - by rewrite !replace_space, upper_without_space, without_idempotent.
Qed.

Lemma no_underscore_upper (s : string) :
  no_underscore s = true -> no_underscore (upper s) = true.
Proof.
  unfold no_underscore. induction s as [|c s IH]; [done|]. simpl.
  intros [Hc Hs]%andb_true_iff. apply andb_true_iff. split; [|by apply IH].
  apply bool_decide_eq_true in Hc. apply bool_decide_eq_true.
  intros Hup. by apply to_upper_underscore in Hup.
Qed.

Lemma no_underscore_without (c : ascii) (s : string) :
  no_underscore s = true -> no_underscore (without c s) = true.
Proof.
  unfold no_underscore. induction s as [|d s IH]; [done|].
  cbn [all_chars without]. intros [Hd Hs]%andb_true_iff.
  destruct (bool_decide (d = c)); [by apply IH|].
  cbn [all_chars]. by rewrite Hd, IH.
Qed.

(* a text without underscore has no occurrence of a pattern whose second
   character is an underscore *)
Lemma replace_no_underscore (s : string) (a : ascii) (rest new : string) :
  no_underscore s = true ->
  replace_from 0 s (String a (String "_" rest)) new = s.
Proof.
  unfold no_underscore. induction s as [|c s IH]; [reflexivity|].
  simpl all_chars. intros [Hc Hs]%andb_true_iff.
  cbn [replace_from String.prefix].
  assert ((if ascii_dec a c then String.prefix (String "_" rest) s else false)
          = false) as ->.
  { destruct (ascii_dec a c); [|reflexivity].
    destruct s as [|d s]; [reflexivity|]. cbn [String.prefix].
    simpl in Hs. apply andb_true_iff in Hs as [Hd _].
    apply bool_decide_eq_true in Hd. by destruct (ascii_dec "_" d) as [<-|]. }
  by rewrite IH.
Qed.

Lemma no_underscore_head (s : string) (rest : string) :
  no_underscore s = true -> String.prefix (String "_" rest) s = false.
Proof.
  destruct s as [|d s]; [reflexivity|]. unfold no_underscore.
  cbn [all_chars String.prefix].
  intros [Hd _]%andb_true_iff. apply bool_decide_eq_true in Hd.
  by destruct (ascii_dec "_" d) as [<-|].
Qed.

(* the last step of [String.prefix]: every character of the pattern matched *)
Lemma prefix_empty (s : string) : String.prefix EmptyString s = true.
Proof. by destruct s. Qed.

Lemma replace_from_hit (c : ascii) (s old new : string) :
  old <> EmptyString ->
  String.prefix old (String c s) = true ->
  replace_from 0 (String c s) old new =
  new +:+ replace_from (String.length old - 1) s old new.
Proof.
  intros Hold Hprefix. cbn [replace_from]. rewrite Hprefix.
  by rewrite bool_decide_eq_false_2.
Qed.

Lemma replace_from_miss (c : ascii) (s old new : string) :
  String.prefix old (String c s) = false ->
  replace_from 0 (String c s) old new = String c (replace_from 0 s old new).
Proof. intros Hprefix. cbn [replace_from]. by rewrite Hprefix. Qed.

(* no occurrence begins in a text without the first character of the pattern *)
Lemma replace_from_other_first (a : ascii) (s1 t rest new : string) :
  all_chars (fun c => bool_decide (c <> a)) s1 = true ->
  replace_from 0 (s1 +:+ t) (String a rest) new =
  s1 +:+ replace_from 0 t (String a rest) new.
Proof.
  induction s1 as [|c s1 IH]; [reflexivity|]. cbn [all_chars].
  intros [Hc Hs1]%andb_true_iff. apply bool_decide_eq_true in Hc.
  change (String c s1 +:+ t) with (String c (s1 +:+ t)).
  rewrite replace_from_miss.
  - by rewrite IH.
  - cbn [String.prefix]. by destruct (ascii_dec a c) as [<-|].
Qed.

(** X18: a stored formula that begins with "=", with "=_xlfn." or with
    "=_xlfn._xlws." before a body without underscore is normalized to what
    the expected formula "=" with that body is normalized to: the
    comparison accepts the formula with or without either prefix on its
    leading function. *)
Theorem prefixed_formula_normalizes (body : string) :
  no_underscore body = true ->
  normalize_test_formula ("=" +:+ body) = normalize_expected ("=" +:+ body) /\
  normalize_test_formula ("=_xlfn." +:+ body) = normalize_expected ("=" +:+ body) /\
  normalize_test_formula ("=_xlfn._xlws." +:+ body) =
    normalize_expected ("=" +:+ body).
Proof.
  intros Hbody. unfold normalize_test_formula, normalize_expected.
  rewrite !replace_space, !upper_append, !without_append.
  pose proof (no_underscore_without " " _ (no_underscore_upper _ Hbody)) as Hclean.
  set (text := without " " (upper body)) in *. clearbody text.
  change (without " " (upper "=")) with "=".
  change (without " " (upper "=_xlfn.")) with "=_XLFN.".
  change (without " " (upper "=_xlfn._xlws.")) with "=_XLFN._XLWS.".
  unfold replace.
  assert (forall rest, replace_from 0 ("=" +:+ text) (String "=" (String "_" rest)) "="
                       = "=" +:+ text) as Hplain.
  { intros rest. apply replace_no_underscore.
    change (no_underscore ("=" +:+ text)) with (true && no_underscore text).
    exact Hclean. }
  assert (replace_from 0 ("=_XLFN." +:+ text) "=_XLFN._XLWS." "="
          = "=_XLFN." +:+ text) as Hkept.
  { change ("=_XLFN." +:+ text) with (String "=" ("_XLFN." +:+ text)).
    rewrite replace_from_miss.
    - rewrite replace_from_other_first by reflexivity.
      by rewrite replace_no_underscore.
    - change (String.prefix "=_XLFN._XLWS." (String "=" ("_XLFN." +:+ text)))
        with (String.prefix "_XLWS." text).
      by apply no_underscore_head. }
  assert (replace_from 0 ("=_XLFN." +:+ text) "=_XLFN." "=" = "=" +:+ text)
    as Hshort.
  { change ("=_XLFN." +:+ text) with (String "=" ("_XLFN." +:+ text)).
    rewrite replace_from_hit; [|discriminate|apply prefix_empty].
    change (replace_from (String.length "=_XLFN." - 1) ("_XLFN." +:+ text)
              "=_XLFN." "=")
      with (replace_from 0 text "=_XLFN." "=").
    by rewrite replace_no_underscore. }
  assert (replace_from 0 ("=_XLFN._XLWS." +:+ text) "=_XLFN._XLWS." "="
          = "=" +:+ text) as Hlong.
  { change ("=_XLFN._XLWS." +:+ text) with (String "=" ("_XLFN._XLWS." +:+ text)).
    rewrite replace_from_hit; [|discriminate|apply prefix_empty].
    change (replace_from (String.length "=_XLFN._XLWS." - 1)
              ("_XLFN._XLWS." +:+ text) "=_XLFN._XLWS." "=")
      with (replace_from 0 text "=_XLFN._XLWS." "=").
    by rewrite replace_no_underscore. }
  split; [|split].
  - by rewrite !Hplain.
  - by rewrite Hkept, Hshort.
  - by rewrite Hlong, Hplain.
Qed.

(** The SORT formula of the sample, stored with the prefix. *)
Lemma sort_formula_normalizes :
  normalize_test_formula "=SORT(B2:B8,,-1)" = "=SORT(B2:B8,,-1)" /\
  normalize_test_formula "=_xlfn.SORT(B2:B8,,-1)" = "=SORT(B2:B8,,-1)" /\
  normalize_test_formula "=_xlfn._xlws.SORT(B2:B8,,-1)" = "=SORT(B2:B8,,-1)".
Proof.
  apply (prefixed_formula_normalizes "SORT(B2:B8,,-1)"). reflexivity.
Defined.
